(** * timepiece/forms.py: the form layer of django-timepiece

    A shallow embedding of the validation and save methods of
    [timepiece/forms.py].  Each form class is a module; its methods are
    functions over the values the form reads ([self.cleaned_data],
    [self.user], [self.instance]) and over the database tables the ORM
    calls touch.  A method that can raise returns a [result]. *)

From stdpp Require Import gmap strings list fin_maps.
From Stdlib Require Import ZArith Lia.

Local Open Scope Z_scope.

(** ** Values and exceptions *)

(** A naive [datetime.datetime], as a point of the time line; Python
    compares two of them by that order. *)
Definition DateTime := Z.

(** A [datetime.date], as a day number. *)
Definition Date := Z.

(** The operands of a ['...' % (...)] format expression, kept as the
    expressions of the source. *)
Inductive fmt_arg :=
| ArgProject (project_id : Z)     (* entry.project *)
| ArgActivity (activity_id : Z)   (* entry.activity *)
| ArgTime (t : DateTime)          (* entry.start_time.time() *)
| ArgDate (d : Date).             (* latest.end_date *)

Inductive message :=
| Msg (text : string)                            (* a literal *)
| MsgFormat (text : string) (args : list fmt_arg).  (* text % args *)

Inductive exn :=
| ValidationError (m : message)   (* forms.ValidationError *)
| DoesNotExist                    (* Model.DoesNotExist, from latest() *)
| TypeError.                      (* None + relativedelta *)

Inductive result (A : Type) :=
| Return (a : A)
| Raise (e : exn).
Arguments Return {A} a.
Arguments Raise {A} e.

(** Exceptions propagate through stdpp's [x ← r; k]. *)
#[global] Instance result_bind : MBind result := λ A B k r,
  match r with
  | Return a => k a
  | Raise e => Raise e
  end.

(** ** Entries *)

(** A row of [timepiece.Entry], with the columns the forms read.  The
    foreign keys are kept as the keys they store. *)
Record Entry := {
  user : positive;
  project : Z;
  activity : Z;
  start_time : DateTime;
  end_time : option DateTime;    (* NULL while the entry is open *)
}.

(** [user.timepiece_entries]: the reverse side of [Entry.user].  The table
    is listed in the order in which a queryset over it yields its rows. *)
Definition timepiece_entries (u : positive) (db : list Entry) : list Entry :=
  filter (λ e, user e = u) db.

(** ** Projects and form keywords *)

(** A row of [timepiece.Project], with what the project querysets of the
    entry forms look up: the members ([users]) and the
    [enable_timetracking] flag of the project's status and of its type. *)
Record Project := {
  project_id : Z;
  users : gset positive;
  status_enable_timetracking : bool;
  type_enable_timetracking : bool;
}.

(** [Project.objects.filter(users=user)] *)
Definition projects_of (u : positive) (projects : list Project) : list Project :=
  filter (λ p, u ∈ users p) projects.

(** The values an [initial] dictionary holds. *)
Inductive py_value :=
| PyNone
| PyInt (z : Z)
| PyStr (s : string)
| PyDateTime (t : DateTime).

Module ClockInForm.

Definition start_conflict (entry : Entry) : message :=
  MsgFormat
    "The start time is on or before the current entry: %s - %s starting at %s"
    [ArgProject (project entry); ArgActivity (activity entry);
     ArgTime (start_time entry)].

(** [clean_start_time], for a start time that was submitted (the field is
    not required; the method is modelled where [cleaned_data] holds a
    datetime).  The loop body raises at once, so the loop raises for the
    first row of the queryset and falls through when there is none. *)
Definition clean_start_time (self_user : positive) (db : list Entry)
    (start : DateTime) : result DateTime :=
  let active_entries :=
    filter (λ e, start ≤ start_time e ∧ end_time e = None)
           (timepiece_entries self_user db) in
  match active_entries with
  | entry :: _ => Raise (ValidationError (start_conflict entry))
  | [] => Return start
  end.

(** What [__init__] sets up: the [initial] keyword as [ModelForm.__init__]
    receives it ([None] when [kwargs] has no such key), the queryset of the
    project field, and the initial value and [required] flag of
    [start_time] and the initial value of [activity] ([None] when it is
    left as the field has it).  The widget is not modelled. *)
Record Init := {
  kwargs_initial : option (gmap string py_value);
  project_queryset : list Project;
  start_time_required : bool;
  start_time_initial : DateTime;
  activity_initial : option Z;
}.

(** [__init__].  [default_loc] is
    [getattr(settings, 'TIMEPIECE_DEFAULT_LOCATION_SLUG', None)],
    [locations] the [Location] rows by slug ([get(slug=..)] finds the key
    of the row or raises DoesNotExist, which is caught), [profile] is
    [user.profile] ([None] when that raises DoesNotExist) with its
    [default_activity], [now] the reading of [datetime.now()].
    [kwargs.get('initial', {})] is the caller's dictionary when there is
    one, and then the assignment is seen through [kwargs]; otherwise it is
    a new dictionary that only the local name holds. *)
Definition init (default_loc : option string) (locations : gmap string positive)
    (projects : list Project) (profile : option (option Z)) (now : DateTime)
    (self_user : positive) (initial : option (gmap string py_value)) : Init :=
  let initial :=
    match default_loc with
    | Some slug =>
        if negb (String.eqb slug "") then
          match locations !! slug with
          | Some loc_pk =>
              match initial with
              | Some d => Some (<["location" := PyInt (Z.pos loc_pk)]> d)
              | None => None
              end
          | None => initial
          end
        else initial
    | None => initial
    end in
  {| kwargs_initial := initial;
     project_queryset :=
       filter (λ p, status_enable_timetracking p = true ∧
                    type_enable_timetracking p = true)
              (projects_of self_user projects);
     start_time_required := false;
     start_time_initial := now;
     activity_initial :=
       match profile with
       | Some (Some default_activity) => Some default_activity
       | _ => None
       end |}.

End ClockInForm.

Module AddUpdateEntryForm.

Definition times_conflict (entry : Entry) : message :=
  MsgFormat
    "The times below conflict with the current entry: %s - %s starting at %s"
    [ArgProject (project entry); ArgActivity (activity entry);
     ArgTime (start_time entry)].

Definition invalid_times : message :=
  Msg "Please enter a valid start and end date/time.".

Definition in_the_future : message :=
  Msg "Entries may not be added in the future.".

(** [clean].  [cleaned_start] and [cleaned_end] are
    [cleaned_data.get('start_time', None)] and
    [cleaned_data.get('end_time', None)]; a datetime is always truthy, so
    [not start] holds for [None] only.  [now1] and [now2] are the two
    readings of [datetime.now()] in the future test, in the order they are
    taken (the second only when the first comparison is false).  The value
    returned stands for [self.cleaned_data]. *)
Definition clean (self_user : positive) (db : list Entry)
    (now1 now2 : DateTime) (cleaned_start cleaned_end : option DateTime)
    : result (DateTime * DateTime) :=
  match cleaned_start, cleaned_end with
  | Some start, Some end_ =>
      if bool_decide (now1 ≤ start) || bool_decide (now2 < end_) then
        Raise (ValidationError in_the_future)
      else
        let entries :=
          filter (λ e, (start_time e ≤ end_ ∧ end_time e = None) ∨
                       (start_time e ≤ start ∧ end_time e = None))
                 (timepiece_entries self_user db) in
        match entries with
        | entry :: _ => Raise (ValidationError (times_conflict entry))
        | [] => Return (start, end_)
        end
  | _, _ => Raise (ValidationError invalid_times)
  end.

(** The queryset [__init__] gives the project field. *)
Definition project_queryset (self_user : positive) (projects : list Project)
    : list Project :=
  projects_of self_user projects.

End AddUpdateEntryForm.

(** ** Clocking out *)

(** A row of [timepiece.Entry] with the further columns ClockOutForm
    writes. *)
Record EntryRow := {
  entry : Entry;
  location : Z;
  comments : string;
}.

Module ClockOutForm.

(** [self.cleaned_data] of a form that validated; both datetime fields are
    required. *)
Record CleanedData := {
  cleaned_location : Z;
  cleaned_comments : string;
  cleaned_start_time : DateTime;
  cleaned_end_time : DateTime;
}.

(** [ModelForm.save(commit=False)]: the fields of [Meta.fields] are copied
    from [cleaned_data] onto the instance. *)
Definition construct_instance (instance : EntryRow) (cleaned_data : CleanedData)
    : EntryRow :=
  {| entry := {| user := user (entry instance);
                 project := project (entry instance);
                 activity := activity (entry instance);
                 start_time := cleaned_start_time cleaned_data;
                 end_time := Some (cleaned_end_time cleaned_data) |};
     location := cleaned_location cleaned_data;
     comments := cleaned_comments cleaned_data |}.

Section save.
(** [Entry.unpause(date=..)] is the model's. *)
Variable unpause : DateTime → EntryRow → EntryRow.

(** [save], on the instance stored as row [k] of the table; [entry.save()]
    writes that row. *)
Definition save (instance : EntryRow) (cleaned_data : CleanedData)
    (commit : bool) (k : nat) (db : list EntryRow) : EntryRow * list EntryRow :=
  let e := construct_instance instance cleaned_data in
  let e := {| entry := {| user := user (entry e);
                          project := project (entry e);
                          activity := activity (entry e);
                          start_time := start_time (entry e);
                          end_time := Some (cleaned_end_time cleaned_data) |};
              location := location e;
              comments := comments e |} in
  let e := unpause (cleaned_end_time cleaned_data) e in
  if commit then (e, <[k := e]> db) else (e, db).
End save.

End ClockOutForm.

(** ** Date ranges *)

(** What [cleaned_data.get(name, '')] gives for a date field that is not
    required: the empty string when the key is absent, [None] for an empty
    field, or the date. *)
Inductive date_value :=
| EmptyString
| NoDate
| ADate (d : Date).

(** [date.max], as a day number ([date.max.toordinal()]). *)
Definition date_max : Date := 3652059.

Module DateForm.

(** [save].  Dates are day numbers, so [timedelta(days=1)] adds one; past
    [date.max] the addition raises OverflowError, which is [None] here. *)
Definition save (from_date to_date : date_value)
    : option (date_value * date_value) :=
  match to_date with
  | ADate d =>
      if bool_decide (d + 1 ≤ date_max) then Some (from_date, ADate (d + 1))
      else None
  | _ => Some (from_date, to_date)
  end.

End DateForm.

(** ** People *)

(** A row of [auth.User], with the columns of [Meta.fields] and the
    password column.  [user_id] is the primary key [id], [None] until the
    row has been inserted. *)
Record User := {
  user_id : option positive;
  username : string;
  first_name : string;
  last_name : string;
  email : string;
  is_active : bool;
  is_staff : bool;
  password : string;
}.

(** Truth value of a form value that is a string or [None]. *)
Definition truthy (v : option string) : bool :=
  match v with
  | Some s => negb (String.eqb s "")
  | None => false
  end.

Module EditPersonForm.

(** [self.cleaned_data] of a bound form; [password_one] and
    [password_two] are what [cleaned_data.get(.., None)] gives. *)
Record CleanedData := {
  cleaned_username : string;
  cleaned_first_name : string;
  cleaned_last_name : string;
  cleaned_email : string;
  cleaned_is_active : bool;
  cleaned_is_staff : bool;
  password_one : option string;
  password_two : option string;
}.

Definition passwords_must_match : message := Msg "Passwords Must Match.".

Definition clean (cleaned_data : CleanedData) : result CleanedData :=
  if truthy (password_one cleaned_data) &&
     bool_decide (password_one cleaned_data ≠ password_two cleaned_data)
  then Raise (ValidationError passwords_must_match)
  else Return cleaned_data.

(** What a password field gives [cleaned_data] for a submitted value.  Both
    are [CharField(required=False, max_length=36)]: a value of more than 36
    characters fails the field's own validation and gets no entry; any
    other value, the empty one included, is cleaned to itself. *)
Definition password_field (submitted : string) : option string :=
  if bool_decide (String.length submitted ≤ 36)%nat then Some submitted
  else None.

(** [self.cleaned_data] as [clean] finds it for the submitted passwords
    [one] and [two], the other fields being cleaned as in [fields]. *)
Definition submitted (fields : CleanedData) (one two : string) : CleanedData :=
  {| cleaned_username := cleaned_username fields;
     cleaned_first_name := cleaned_first_name fields;
     cleaned_last_name := cleaned_last_name fields;
     cleaned_email := cleaned_email fields;
     cleaned_is_active := cleaned_is_active fields;
     cleaned_is_staff := cleaned_is_staff fields;
     password_one := password_field one;
     password_two := password_field two |}.

(** [ModelForm.save(commit=False)]: the fields of [Meta.fields] are
    copied from [cleaned_data] onto the instance; nothing is written. *)
Definition construct_instance (instance : User) (cleaned_data : CleanedData)
    : User :=
  {| user_id := user_id instance;
     username := cleaned_username cleaned_data;
     first_name := cleaned_first_name cleaned_data;
     last_name := cleaned_last_name cleaned_data;
     email := cleaned_email cleaned_data;
     is_active := cleaned_is_active cleaned_data;
     is_staff := cleaned_is_staff cleaned_data;
     password := password instance |}.

(** [Model.save()]: insert under a fresh key, or update the row. *)
Definition model_save (instance : User) (auth_user : gmap positive User)
    : User * gmap positive User :=
  let i := default (fresh (dom auth_user)) (user_id instance) in
  let instance :=
    {| user_id := Some i;
       username := username instance;
       first_name := first_name instance;
       last_name := last_name instance;
       email := email instance;
       is_active := is_active instance;
       is_staff := is_staff instance;
       password := password instance |} in
  (instance, <[i := instance]> auth_user).

Section save.
(** [User.set_password] stores a hash of the raw password; the hash is
    the framework's. *)
Variable make_password : string → string.

Definition set_password (instance : User) (raw_password : string) : User :=
  {| user_id := user_id instance;
     username := username instance;
     first_name := first_name instance;
     last_name := last_name instance;
     email := email instance;
     is_active := is_active instance;
     is_staff := is_staff instance;
     password := make_password raw_password |}.

(** [save] of a form that validated, on [self.instance], with the
    [commit] keyword and the [auth_user] table. *)
Definition save (instance : User) (cleaned_data : CleanedData)
    (commit : bool) (auth_user : gmap positive User)
    : User * gmap positive User :=
  let instance := construct_instance instance cleaned_data in
  let instance :=
    match password_one cleaned_data with
    | Some raw => if negb (String.eqb raw "") then set_password instance raw
                  else instance
    | None => instance
    end in
  if commit then model_save instance auth_user
  else (instance, auth_user).
End save.

End EditPersonForm.

(** ** Quick search *)

(** The model classes an autocomplete lookup can hand back. *)
Inductive model_class :=
| timepiece_Project
| timepiece_Business
| auth_models_User
| other_model (name : string).

#[global] Instance model_class_eq_dec : EqDecision model_class.
Proof. solve_decision. Defined.

(** A looked-up object: its class and its [id]. *)
Record item := { item_class : model_class; item_id : Z }.

(** [reverse(viewname, kwargs={...})], kept as the call. *)
Inductive url := reverse (viewname : string) (kwargs : list (string * Z)).

Module QuickSearchForm.

Definition isinstance (i : item) (c : model_class) : bool :=
  bool_decide (item_class i = c).

Definition must_be_user_or_project : message :=
  Msg "Must be a User or Project".

Definition clean_quick_search (i : item) : result url :=
  if isinstance i timepiece_Project then
    Return (reverse "view_project" [("project_id", item_id i)])
  else if isinstance i timepiece_Business then
    Return (reverse "view_business" [("business", item_id i)])
  else if isinstance i auth_models_User then
    Return (reverse "view_person" [("person_id", item_id i)])
  else Raise (ValidationError must_be_user_or_project).

End QuickSearchForm.

(** ** Billing periods *)

(** A row of [timepiece.RepeatPeriod]; [period_id] is the primary key
    [id], [None] until the row has been inserted.  Keys are positive, so
    [instance.id] is truthy exactly when there is one. *)
Record RepeatPeriod := {
  period_id : option positive;
  active : bool;
  count : option Z;
  interval : option string;
}.

(** A row of [timepiece.BillingWindow]; [period] is the key of the owning
    period. *)
Record BillingWindow := {
  period : positive;
  date : Date;
  end_date : Date;
}.

(** The two tables the form works on.  Billing windows are listed in the
    order in which they were inserted. *)
Record Store := {
  repeat_periods : gmap positive RepeatPeriod;
  windows : list BillingWindow;
}.

(** What [timepiece.models] and the framework give the form: they are not
    part of [forms.py], so the form is stated over any of them. *)
Class PeriodModels := {
  Delta : Type;                                   (* relativedelta *)
  delta : RepeatPeriod → Delta;                   (* RepeatPeriod.delta() *)
  date_add : Date → Delta → Date;                 (* date + relativedelta *)
  latest : list BillingWindow → option BillingWindow;
                    (* QuerySet.latest(); None when it raises DoesNotExist *)
  update_billing_windows : RepeatPeriod → Store → Store;
                    (* RepeatPeriod.update_billing_windows() *)
}.

Module RepeatPeriodForm.

Record CleanedData := {
  cleaned_active : bool;
  cleaned_count : option Z;
  cleaned_interval : option string;
  cleaned_date : option Date;
}.

(** A bound form: [self.instance] and [self.cleaned_data]. *)
Record Form := {
  instance : RepeatPeriod;
  cleaned_data : CleanedData;
}.

(** [period.billing_windows], for a period stored under key [i]. *)
Definition billing_windows (i : positive) (st : Store) : list BillingWindow :=
  filter (λ w, period w = i) (windows st).

(** [period.billing_windows.create(date=d, end_date=e)]. *)
Definition create (i : positive) (d e : Date) (st : Store) : Store :=
  {| repeat_periods := repeat_periods st;
     windows := windows st ++ [{| period := i; date := d; end_date := e |}] |}.

(** [period.save()]: insert under a fresh key, or update the row.  Gives
    the key, the period as it is afterwards and the store. *)
Definition model_save (p : RepeatPeriod) (st : Store)
    : positive * RepeatPeriod * Store :=
  let i := default (fresh (dom (repeat_periods st))) (period_id p) in
  let p := {| period_id := Some i; active := active p;
              count := count p; interval := interval p |} in
  (i, p, {| repeat_periods := <[i := p]> (repeat_periods st);
            windows := windows st |}).

(** [ModelForm.save(commit=False)]: the fields of [Meta.fields] are
    copied from [cleaned_data] onto the instance; nothing is written. *)
Definition construct_instance (f : Form) : RepeatPeriod :=
  {| period_id := period_id (instance f);
     active := cleaned_active (cleaned_data f);
     count := cleaned_count (cleaned_data f);
     interval := cleaned_interval (cleaned_data f) |}.

Definition start_date_required : message :=
  Msg "Start date is required for new billing periods".

Definition new_start_date_must_be_after (d : Date) : message :=
  MsgFormat "New start date must be after %s" [ArgDate d].

Definition clean_date (f : Form) : result (option Date) :=
  let active := cleaned_active (cleaned_data f) in
  let date := cleaned_date (cleaned_data f) in
  if active && bool_decide (period_id (instance f) = None)
            && bool_decide (date = None)
  then Raise (ValidationError start_date_required)
  else Return date.

Definition this_field_is_required : message := Msg "This field is required.".

(** [_clean_optional(name)], over the truth value of the field's values;
    [value] is [cleaned_data.get(name, '')], with [None] for a value that
    is [None]. *)
Definition _clean_optional {A} (is_true : A → bool) (active : bool)
    (value : option A) : result (option A) :=
  if active && negb (from_option is_true false value)
  then Raise (ValidationError this_field_is_required)
  else Return value.

Definition clean_count (f : Form) : result (option Z) :=
  _clean_optional (λ n, negb (n =? 0))
    (cleaned_active (cleaned_data f)) (cleaned_count (cleaned_data f)).

Definition clean_interval (f : Form) : result (option string) :=
  _clean_optional (λ s, negb (String.eqb s ""))
    (cleaned_active (cleaned_data f)) (cleaned_interval (cleaned_data f)).

Section methods.
Context `{PeriodModels}.

(** [billing_windows.latest()] *)
Definition latest_or_raise (ws : list BillingWindow) : result BillingWindow :=
  match latest ws with
  | Some w => Return w
  | None => Raise DoesNotExist
  end.

Definition clean (f : Form) (st : Store) : result CleanedData :=
  match period_id (instance f), cleaned_date (cleaned_data f) with
  | Some i, Some date =>
      latest ← latest_or_raise (billing_windows i st);
      if cleaned_active (cleaned_data f) && bool_decide (date < end_date latest)
      then Raise (ValidationError
                    (new_start_date_must_be_after (end_date latest)))
      else Return (cleaned_data f)
  | _, _ => Return (cleaned_data f)
  end.

(** [save], of a form that validated (on a form with errors
    [super().save(commit=False)] raises ValueError before anything else).
    [period] is [self.instance] itself, with the cleaned fields set; its
    [id] is read before [period.save()] in the first test and the second
    test is reached only when nothing was saved. *)
Definition save (f : Form) (st : Store) : result (RepeatPeriod * Store) :=
  let period := construct_instance f in
  '(period, st) ←
    (if bool_decide (period_id (instance f) = None) && active period then
       let '(i, period, st) := model_save period st in
       match cleaned_date (cleaned_data f) with
       | Some date =>
           Return (period, create i date (date_add date (delta period)) st)
       | None => Raise TypeError
       end
     else
       match period_id (instance f) with
       | Some _ =>
           let '(i, period, st) := model_save period st in
           match cleaned_date (cleaned_data f) with
           | Some start_date =>
               if active period then
                 latest ← latest_or_raise (billing_windows i st);
                 if bool_decide (end_date latest < start_date) then
                   Return (period,
                           create i (end_date latest)
                             (date_add start_date (delta period)) st)
                 else Return (period, st)
               else Return (period, st)
           | None => Return (period, st)
           end
       | None => Return (period, st)
       end);
  Return (period, update_billing_windows period st).

End methods.

End RepeatPeriodForm.

(** ** Notions the properties are stated with *)

(** [e] is an open entry of user [u]: a row of [u] whose [end_time] is
    NULL. *)
Definition open_entry_of (u : positive) (db : list Entry) (e : Entry) : Prop :=
  e ∈ db ∧ user e = u ∧ end_time e = None.

(** Two half-open time ranges [a1, b1) and [a2, b2) overlap; an end that is
    [None] is an open end. *)
Definition ranges_overlap (a1 : DateTime) (b1 : option DateTime)
    (a2 : DateTime) (b2 : option DateTime) : Prop :=
  match b2 with Some b => a1 < b | None => True end ∧
  match b1 with Some b => a2 < b | None => True end.

(** An open entry of [u] whose range overlaps the range [start, end_). *)
Definition overlapping_open_entry (u : positive) (db : list Entry)
    (start : DateTime) (end_ : option DateTime) (e : Entry) : Prop :=
  open_entry_of u db e ∧
  ranges_overlap (start_time e) (end_time e) start end_.

(** The period as [save] leaves it once it is stored under key [i]: the
    instance with the cleaned [active], [count] and [interval]. *)
Definition saved_period (i : positive) (f : RepeatPeriodForm.Form) : RepeatPeriod :=
  {| period_id := Some i;
     active := RepeatPeriodForm.cleaned_active (RepeatPeriodForm.cleaned_data f);
     count := RepeatPeriodForm.cleaned_count (RepeatPeriodForm.cleaned_data f);
     interval :=
       RepeatPeriodForm.cleaned_interval (RepeatPeriodForm.cleaned_data f) |}.

(** The store with period [p] written under key [i] and [ws] as its
    billing windows table. *)
Definition stored (i : positive) (p : RepeatPeriod) (ws : list BillingWindow)
    (st : Store) : Store :=
  {| repeat_periods := <[i := p]> (repeat_periods st); windows := ws |}.

(** Models used to evaluate the form on concrete stores: a delta is a
    number of days, the period's [count]; [latest] takes the window with
    the greatest [date]; [update_billing_windows] adds no window. *)
Definition latest_by_date (ws : list BillingWindow) : option BillingWindow :=
  foldl (λ acc w,
           match acc with
           | Some a => if bool_decide (date a ≤ date w) then Some w else Some a
           | None => Some w
           end) None ws.

Definition day_models : PeriodModels :=
  {| Delta := Z;
     delta := λ p, default 0 (count p);
     date_add := Z.add;
     latest := latest_by_date;
     update_billing_windows := λ _ st, st |}.

(** Periods, windows and forms used to evaluate RepeatPeriodForm. *)
Definition weekly : RepeatPeriod :=
  {| period_id := Some 1%positive; active := true;
     count := Some 7; interval := Some "day" |}.

Definition first_window : BillingWindow :=
  {| period := 1; date := 0; end_date := 7 |}.

Definition empty_store : Store :=
  {| repeat_periods := ∅; windows := [] |}.

Definition one_window_store : Store :=
  {| repeat_periods := {[1%positive := weekly]}; windows := [first_window] |}.

Definition weekly_cleaned (d : option Date) : RepeatPeriodForm.CleanedData :=
  {| RepeatPeriodForm.cleaned_active := true;
     RepeatPeriodForm.cleaned_count := Some 7;
     RepeatPeriodForm.cleaned_interval := Some "day";
     RepeatPeriodForm.cleaned_date := d |}.

Definition new_form (d : option Date) : RepeatPeriodForm.Form :=
  {| RepeatPeriodForm.instance :=
       {| period_id := None; active := false; count := None; interval := None |};
     RepeatPeriodForm.cleaned_data := weekly_cleaned d |}.

Definition edit_form (d : option Date) : RepeatPeriodForm.Form :=
  {| RepeatPeriodForm.instance := weekly;
     RepeatPeriodForm.cleaned_data := weekly_cleaned d |}.

(** Rows used to evaluate the entry forms. *)
Definition open_entry (u : positive) (start : DateTime) : Entry :=
  {| user := u; project := 1; activity := 1;
     start_time := start; end_time := None |}.

Definition closed_entry (u : positive) (start end_ : DateTime) : Entry :=
  {| user := u; project := 1; activity := 1;
     start_time := start; end_time := Some end_ |}.

(** The open entries of user [u], in table order. *)
Definition open_entries (u : positive) (db : list Entry) : list Entry :=
  filter (λ e, user e = u ∧ end_time e = None) db.

(** A stored row used to evaluate ClockOutForm. *)
Definition entry_row (u : positive) (start : DateTime) (end_ : option DateTime)
    : EntryRow :=
  {| entry := {| user := u; project := 1; activity := 1;
                 start_time := start; end_time := end_ |};
     location := 1; comments := "" |}.

Definition clock_out_at (start end_ : DateTime) : ClockOutForm.CleanedData :=
  {| ClockOutForm.cleaned_location := 1;
     ClockOutForm.cleaned_comments := "done";
     ClockOutForm.cleaned_start_time := start;
     ClockOutForm.cleaned_end_time := end_ |}.

(** A user and cleaned data used to evaluate EditPersonForm. *)
Definition ann : User :=
  {| user_id := Some 1%positive; username := "ann"; first_name := "Ann";
     last_name := "Lee"; email := "ann@example.com"; is_active := true;
     is_staff := false; password := "sha1$old" |}.

Definition ann_cleaned (password_one password_two : option string)
    : EditPersonForm.CleanedData :=
  {| EditPersonForm.cleaned_username := "ann";
     EditPersonForm.cleaned_first_name := "Ann";
     EditPersonForm.cleaned_last_name := "Lee";
     EditPersonForm.cleaned_email := "ann@example.com";
     EditPersonForm.cleaned_is_active := true;
     EditPersonForm.cleaned_is_staff := false;
     EditPersonForm.password_one := password_one;
     EditPersonForm.password_two := password_two |}.

(** ** Queryset lemmas *)

Section querysets.
Context {A : Type} (P : A → Prop) `{!∀ x, Decision (P x)}.

Lemma filter_empty_iff (l : list A) :
  filter P l = [] ↔ ∀ x, x ∈ l → ¬ P x.
Proof.
  split.
  - intros Hnil x Hx HP. by eapply filter_nil_not_elem_of.
  - intros Hall. induction l as [|y l IH]; [done|].
    rewrite filter_cons_False.
    + apply IH. intros x Hx. apply Hall. by right.
    + apply Hall. by left.
Qed.

Lemma filter_first (l : list A) x rest :
  filter P l = x :: rest → P x ∧ x ∈ l.
Proof.
  intros Heq. apply (list_elem_of_filter P l x). rewrite Heq. by left.
Qed.

End querysets.

Lemma elem_of_timepiece_entries u db e :
  e ∈ timepiece_entries u db ↔ e ∈ db ∧ user e = u.
Proof. unfold timepiece_entries. rewrite list_elem_of_filter. tauto. Qed.

Lemma open_entry_of_queryset u db e :
  open_entry_of u db e ↔ e ∈ timepiece_entries u db ∧ end_time e = None.
Proof. unfold open_entry_of. rewrite elem_of_timepiece_entries. tauto. Qed.

(** ** Clocking in *)

Lemma clean_start_time_raise u db start x :
  ClockInForm.clean_start_time u db start = Raise x →
  ∃ e, open_entry_of u db e ∧ start ≤ start_time e ∧
       x = ValidationError (ClockInForm.start_conflict e).
Proof.
  unfold ClockInForm.clean_start_time.
  destruct (filter _ _) as [|e rest] eqn:Hq; [done|].
  intros [= <-]. apply filter_first in Hq as [[Hge Hopen] Hin].
  exists e. by rewrite open_entry_of_queryset.
Qed.

Lemma clean_start_time_return u db start s :
  ClockInForm.clean_start_time u db start = Return s →
  s = start ∧ ∀ e, open_entry_of u db e → start_time e < start.
Proof.
  unfold ClockInForm.clean_start_time.
  destruct (filter _ _) as [|e rest] eqn:Hq; [|done].
  intros [= <-]. split; [done|]. intros e [Hin Hopen]%open_entry_of_queryset.
  rewrite filter_empty_iff in Hq. specialize (Hq e Hin).
  destruct (decide (start_time e < start)); [done|].
  exfalso. apply Hq. split; [lia|done].
Qed.

(** C7.  ClockInForm's start-time check raises if and only if the user has
    an entry with a null end_time and a start_time greater than or equal to
    the submitted start time; what it raises is the validation error naming
    such an entry, and when there is none the start time is returned. *)
Theorem clock_in_rejects_iff_open_entry_at_or_after_start
    (u : positive) (db : list Entry) (start : DateTime) :
  ((∃ x, ClockInForm.clean_start_time u db start = Raise x)
   ↔ (∃ e, e ∈ db ∧ user e = u ∧ end_time e = None ∧ start ≤ start_time e))
  ∧ match ClockInForm.clean_start_time u db start with
    | Raise x =>
        ∃ e, (e ∈ db ∧ user e = u ∧ end_time e = None ∧ start ≤ start_time e) ∧
             x = ValidationError
                   (MsgFormat
                      "The start time is on or before the current entry: %s - %s starting at %s"
                      [ArgProject (project e); ArgActivity (activity e);
                       ArgTime (start_time e)])
    | Return s => s = start
    end.
Proof.
  destruct (ClockInForm.clean_start_time u db start) as [s|x] eqn:Hc.
  - apply clean_start_time_return in Hc as [-> Hall]. split; [|done]. split.
    + by intros [x [=]].
    + intros (e & Hin & Hu & Hopen & Hge).
      specialize (Hall e (conj Hin (conj Hu Hopen))). lia.
  - apply clean_start_time_raise in Hc as (e & (Hin & Hu & Hopen) & Hge & ->).
    split.
    + split; [intros _; by exists e|intros _; by eexists].
    + by exists e.
Qed.

(** ** Adding and updating entries *)

Lemma add_update_clean_future u db now1 now2 start end_ :
  now1 ≤ start ∨ now2 < end_ →
  AddUpdateEntryForm.clean u db now1 now2 (Some start) (Some end_) =
    Raise (ValidationError AddUpdateEntryForm.in_the_future).
Proof.
  intros Hfut. unfold AddUpdateEntryForm.clean.
  destruct Hfut as [Hs|He].
  - by rewrite (bool_decide_eq_true_2 _ Hs).
  - rewrite (bool_decide_eq_true_2 _ He). by rewrite orb_true_r.
Qed.

Lemma add_update_clean_raise u db now1 now2 start end_ x :
  AddUpdateEntryForm.clean u db now1 now2 (Some start) (Some end_) = Raise x →
  (x = ValidationError AddUpdateEntryForm.in_the_future ∧
   (now1 ≤ start ∨ now2 < end_))
  ∨ (start < now1 ∧ end_ ≤ now2 ∧
     ∃ e, open_entry_of u db e ∧
          (start_time e ≤ end_ ∨ start_time e ≤ start) ∧
          x = ValidationError (AddUpdateEntryForm.times_conflict e)).
Proof.
  unfold AddUpdateEntryForm.clean.
  destruct (bool_decide (now1 ≤ start)) eqn:Hs;
    [intros [= <-]; left; apply bool_decide_eq_true_1 in Hs; auto|].
  destruct (bool_decide (now2 < end_)) eqn:He; simpl;
    [intros [= <-]; left; apply bool_decide_eq_true_1 in He; auto|].
  apply bool_decide_eq_false_1 in Hs, He.
  destruct (filter _ _) as [|e rest] eqn:Hq; [done|].
  intros [= <-]. right. split; [lia|]. split; [lia|].
  apply filter_first in Hq as [HP Hin]. exists e. split.
  - apply open_entry_of_queryset. split; [done|]. tauto.
  - split; [tauto|done].
Qed.

Lemma add_update_clean_return u db now1 now2 start end_ r :
  AddUpdateEntryForm.clean u db now1 now2 (Some start) (Some end_) = Return r →
  r = (start, end_) ∧ start < now1 ∧ end_ ≤ now2 ∧
  ∀ e, open_entry_of u db e → end_ < start_time e ∧ start < start_time e.
Proof.
  unfold AddUpdateEntryForm.clean.
  destruct (bool_decide (now1 ≤ start)) eqn:Hs; [done|].
  destruct (bool_decide (now2 < end_)) eqn:He; [done|simpl].
  apply bool_decide_eq_false_1 in Hs, He.
  destruct (filter _ _) as [|e rest] eqn:Hq; [|done].
  intros [= <-]. split; [done|]. split; [lia|]. split; [lia|].
  intros e [Hin Hopen]%open_entry_of_queryset.
  rewrite filter_empty_iff in Hq. specialize (Hq e Hin).
  destruct (decide (start_time e ≤ end_)); [destruct Hq; tauto|].
  destruct (decide (start_time e ≤ start)); [destruct Hq; tauto|]. lia.
Qed.

Lemma conflict_is_not_future e :
  ValidationError (AddUpdateEntryForm.times_conflict e) ≠
  ValidationError AddUpdateEntryForm.in_the_future.
Proof. done. Qed.

Lemma add_update_clean_return_times u db now1 now2 cleaned_start cleaned_end r :
  AddUpdateEntryForm.clean u db now1 now2 cleaned_start cleaned_end = Return r →
  cleaned_start = Some r.1 ∧ cleaned_end = Some r.2.
Proof.
  destruct cleaned_start as [start|], cleaned_end as [end_|]; try done.
  by intros [-> _]%add_update_clean_return.
Qed.

(** C1, as stated, fails: a candidate whose start lies after its end is
    refused for an open entry that starts between the two, although no open
    entry starts at or before the candidate's end. *)
Lemma add_update_conflict_beyond_candidate_end :
  AddUpdateEntryForm.clean 1 [open_entry 1 45] 100 100 (Some 50) (Some 40) =
    Raise (ValidationError (AddUpdateEntryForm.times_conflict (open_entry 1 45)))
  ∧ ¬ ∃ e, e ∈ [open_entry 1 45] ∧ user e = 1%positive ∧
           end_time e = None ∧ start_time e ≤ 40.
Proof.
  split; [reflexivity|].
  intros (e & Hin & _ & _ & Hle).
  apply list_elem_of_singleton in Hin as ->. simpl in Hle. lia.
Qed.

(** The future test comes first: a candidate in the future gets the future
    error, whatever open entries there are. *)
Example add_update_future_before_conflict :
  AddUpdateEntryForm.clean 1 [open_entry 1 10] 100 100 (Some 200) (Some 300) =
    Raise (ValidationError AddUpdateEntryForm.in_the_future).
Proof. reflexivity. Qed.

(** C1, amended.  For a candidate with both times present and not in the
    future (start < now and end <= now), AddUpdateEntryForm validation
    raises the conflict error if and only if some existing entry of that
    user has a null end_time and a start_time at or before the candidate's
    end or at or before the candidate's start; the error names such an
    entry, and nothing else is raised.  When start <= end the condition is:
    a null end_time and a start_time at or before the candidate's end. *)
Theorem add_update_rejects_iff_open_entry_at_or_before_range
    (u : positive) (db : list Entry) (now1 now2 start end_ : DateTime) :
  start < now1 → end_ ≤ now2 →
  ((∃ e, AddUpdateEntryForm.clean u db now1 now2 (Some start) (Some end_) =
           Raise (ValidationError (AddUpdateEntryForm.times_conflict e)))
   ↔ (∃ e, e ∈ db ∧ user e = u ∧ end_time e = None ∧
           (start_time e ≤ end_ ∨ start_time e ≤ start)))
  ∧ (∀ x, AddUpdateEntryForm.clean u db now1 now2 (Some start) (Some end_) =
            Raise x →
          ∃ e, (e ∈ db ∧ user e = u ∧ end_time e = None ∧
                (start_time e ≤ end_ ∨ start_time e ≤ start)) ∧
               x = ValidationError (AddUpdateEntryForm.times_conflict e))
  ∧ (start ≤ end_ →
     ((∃ e, AddUpdateEntryForm.clean u db now1 now2 (Some start) (Some end_) =
              Raise (ValidationError (AddUpdateEntryForm.times_conflict e)))
      ↔ (∃ e, e ∈ db ∧ user e = u ∧ end_time e = None ∧
              start_time e ≤ end_))).
Proof.
  intros Hstart Hend.
  assert (Hraise :
    ∀ x, AddUpdateEntryForm.clean u db now1 now2 (Some start) (Some end_) =
           Raise x →
         ∃ e, (e ∈ db ∧ user e = u ∧ end_time e = None ∧
               (start_time e ≤ end_ ∨ start_time e ≤ start)) ∧
              x = ValidationError (AddUpdateEntryForm.times_conflict e)).
  { intros x Hc.
    apply add_update_clean_raise in Hc
      as [[_ Hfut]|(_ & _ & e & (Hin & Hu & Hopen) & Hle & ->)]; [lia|].
    by exists e. }
  assert (Hiff :
    (∃ e, AddUpdateEntryForm.clean u db now1 now2 (Some start) (Some end_) =
            Raise (ValidationError (AddUpdateEntryForm.times_conflict e)))
    ↔ (∃ e, e ∈ db ∧ user e = u ∧ end_time e = None ∧
            (start_time e ≤ end_ ∨ start_time e ≤ start))).
  { split.
    - intros (e & Hc). apply Hraise in Hc as (e' & He' & _). by exists e'.
    - intros (e & Hin & Hu & Hopen & Hle).
      destruct (AddUpdateEntryForm.clean u db now1 now2 (Some start) (Some end_))
        as [r|x] eqn:Hc.
      + apply add_update_clean_return in Hc as (_ & _ & _ & Hall).
        specialize (Hall e (conj Hin (conj Hu Hopen))). lia.
      + destruct (Hraise x eq_refl) as (e' & _ & ->). by exists e'. }
  split; [exact Hiff|]. split; [exact Hraise|].
  intros Horder. rewrite Hiff. split.
  - intros (e & Hin & Hu & Hopen & Hle). exists e. repeat split; [done..|lia].
  - intros (e & Hin & Hu & Hopen & Hle). exists e. repeat split; [done..|lia].
Qed.

Lemma add_update_rejects_iff_open_entry_at_or_before_range_witness :
  (20 < 100 ∧ 40 ≤ 100) ∧
  ∃ e, AddUpdateEntryForm.clean 1 [open_entry 1 30] 100 100 (Some 20) (Some 40) =
         Raise (ValidationError (AddUpdateEntryForm.times_conflict e)).
Proof.
  split; [lia|].
  apply (add_update_rejects_iff_open_entry_at_or_before_range
           1 [open_entry 1 30] 100 100 20 40); [lia..|].
  exists (open_entry 1 30). simpl. repeat split; [by left|lia].
Defined.

(** C8.  With both times present, AddUpdateEntryForm validation raises
    'Entries may not be added in the future.' exactly when start_time >= now
    or end_time > now (each against the clock reading its comparison
    takes); a start equal to the current time is rejected, while an end
    equal to the current time is not, and is accepted when no open entry
    conflicts. *)
Theorem add_update_future_check_is_asymmetric
    (u : positive) (db : list Entry) (now1 now2 start end_ : DateTime) :
  (AddUpdateEntryForm.clean u db now1 now2 (Some start) (Some end_) =
     Raise (ValidationError AddUpdateEntryForm.in_the_future)
   ↔ (now1 ≤ start ∨ now2 < end_))
  ∧ AddUpdateEntryForm.clean u db now1 now2 (Some now1) (Some end_) =
      Raise (ValidationError AddUpdateEntryForm.in_the_future)
  ∧ (start < now1 →
     AddUpdateEntryForm.clean u db now1 now2 (Some start) (Some now2) ≠
       Raise (ValidationError AddUpdateEntryForm.in_the_future)
     ∧ ((∀ e, open_entry_of u db e → start < start_time e ∧ now2 < start_time e) →
        AddUpdateEntryForm.clean u db now1 now2 (Some start) (Some now2) =
          Return (start, now2))).
Proof.
  split; [|split].
  - split.
    + intros Hc.
      apply add_update_clean_raise in Hc as [[_ Hfut]|(_ & _ & e & _ & _ & Hx)];
        [done|].
      symmetry in Hx. by apply conflict_is_not_future in Hx.
    + apply add_update_clean_future.
  - apply add_update_clean_future. left. lia.
  - intros Hstart.
    assert (Hnot : AddUpdateEntryForm.clean u db now1 now2 (Some start) (Some now2) ≠
                   Raise (ValidationError AddUpdateEntryForm.in_the_future)).
    { intros Hc.
      apply add_update_clean_raise in Hc as [[_ Hfut]|(_ & _ & e & _ & _ & Hx)];
        [lia|].
      symmetry in Hx. by apply conflict_is_not_future in Hx. }
    split; [exact Hnot|]. intros Hlater.
    destruct (AddUpdateEntryForm.clean u db now1 now2 (Some start) (Some now2))
      as [r|x] eqn:Hc.
    + by apply add_update_clean_return in Hc as (-> & _).
    + apply add_update_clean_raise in Hc
        as [[_ Hfut]|(_ & _ & e & Ho & Hle & _)]; [lia|].
      specialize (Hlater e Ho). lia.
Qed.

Lemma add_update_future_check_is_asymmetric_witness :
  50 < 100 ∧
  AddUpdateEntryForm.clean 1 [open_entry 1 150] 100 100 (Some 50) (Some 100) ≠
    Raise (ValidationError AddUpdateEntryForm.in_the_future)
  ∧ AddUpdateEntryForm.clean 1 [open_entry 1 150] 100 100 (Some 50) (Some 100) =
      Return (50, 100).
Proof.
  split; [lia|].
  destruct (add_update_future_check_is_asymmetric
              1 [open_entry 1 150] 100 100 50 0) as (_ & _ & Hend).
  destruct (Hend ltac:(lia)) as [Hnot Hok]. split; [exact Hnot|].
  apply Hok. intros e (Hin & _ & _).
  apply list_elem_of_singleton in Hin as ->. simpl. lia.
Defined.

(** ** Open entries and the range of an accepted entry *)

(** C4, as stated, fails for ClockInForm: the start time 20 is accepted
    while the user has an open entry that began at 10, whose range overlaps
    the range of the entry being clocked in. *)
Lemma clock_in_accepts_beside_earlier_open_entry :
  ClockInForm.clean_start_time 1 [open_entry 1 10] 20 = Return 20
  ∧ overlapping_open_entry 1 [open_entry 1 10] 20 None (open_entry 1 10).
Proof.
  split; [reflexivity|].
  split; [|done]. repeat split. by left.
Qed.

(** C4, amended.  Whenever AddUpdateEntryForm validation succeeds, every
    open entry of that user starts strictly after both the start and the
    end of the accepted entry, so no open entry of the user overlaps its
    range; whenever ClockInForm's start-time validation succeeds, every
    open entry of that user starts strictly before the submitted start
    time. *)
Theorem entry_forms_accept_only_clear_of_open_entries
    (u : positive) (db : list Entry) :
  (∀ now1 now2 cleaned_start cleaned_end start end_,
     AddUpdateEntryForm.clean u db now1 now2 cleaned_start cleaned_end =
       Return (start, end_) →
     cleaned_start = Some start ∧ cleaned_end = Some end_ ∧
     (∀ e, open_entry_of u db e → start < start_time e ∧ end_ < start_time e) ∧
     ¬ ∃ e, overlapping_open_entry u db start (Some end_) e)
  ∧ (∀ start s,
       ClockInForm.clean_start_time u db start = Return s →
       s = start ∧ ∀ e, open_entry_of u db e → start_time e < start).
Proof.
  split.
  - intros now1 now2 cleaned_start cleaned_end start end_ Hc.
    destruct (add_update_clean_return_times _ _ _ _ _ _ _ Hc) as [-> ->].
    simpl. apply add_update_clean_return in Hc as (_ & _ & _ & Hall).
    simpl in Hall. split; [done|]. split; [done|]. split.
    + intros e Ho. destruct (Hall e Ho). by split.
    + intros (e & Ho & Hlt & _). destruct (Hall e Ho). simpl in Hlt. lia.
  - intros start s Hc. by apply clean_start_time_return.
Qed.

Lemma entry_forms_accept_only_clear_of_open_entries_witness :
  AddUpdateEntryForm.clean 1 [open_entry 1 60; closed_entry 1 5 30] 100 100
    (Some 20) (Some 40) = Return (20, 40)
  ∧ ¬ ∃ e, overlapping_open_entry 1 [open_entry 1 60; closed_entry 1 5 30]
             20 (Some 40) e.
Proof.
  split; [reflexivity|].
  destruct (entry_forms_accept_only_clear_of_open_entries
              1 [open_entry 1 60; closed_entry 1 5 30]) as [Hadd _].
  apply (Hadd 100 100 (Some 20) (Some 40) 20 40). reflexivity.
Defined.

(** ** People *)

Lemma truthy_Some (v : option string) :
  truthy v = true ↔ ∃ p, v = Some p ∧ p ≠ "".
Proof.
  destruct v as [p|]; simpl.
  - destruct (String.eqb_spec p "") as [->|Hne]; simpl.
    + split; [done|]. by intros (q & [= <-] & Hq).
    + split; [|done]. intros _. by exists p.
  - split; [done|]. by intros (q & [=] & _).
Qed.

Lemma passwords_differ_spec (cleaned_data : EditPersonForm.CleanedData) :
  truthy (EditPersonForm.password_one cleaned_data) &&
  bool_decide (EditPersonForm.password_one cleaned_data ≠
               EditPersonForm.password_two cleaned_data) = true
  ↔ ∃ p, EditPersonForm.password_one cleaned_data = Some p ∧ p ≠ "" ∧
         EditPersonForm.password_two cleaned_data ≠ Some p.
Proof.
  rewrite andb_true_iff, truthy_Some, bool_decide_eq_true. split.
  - intros [(p & Hone & Hp) Hdiff]. exists p. repeat split; [done..|].
    congruence.
  - intros (p & Hone & Hp & Hdiff). split; [by exists p|]. congruence.
Qed.

(** On the cleaned values: [clean] raises 'Passwords Must Match.' if and
    only if the first password is present, non-empty and differs from the
    second; otherwise it raises nothing and returns the cleaned data. *)
Theorem edit_person_passwords_must_match
    (cleaned_data : EditPersonForm.CleanedData) :
  (EditPersonForm.clean cleaned_data =
     Raise (ValidationError (Msg "Passwords Must Match."))
   ↔ (∃ p, EditPersonForm.password_one cleaned_data = Some p ∧ p ≠ "" ∧
           EditPersonForm.password_two cleaned_data ≠ Some p))
  ∧ (EditPersonForm.clean cleaned_data = Return cleaned_data
     ↔ ¬ (∃ p, EditPersonForm.password_one cleaned_data = Some p ∧ p ≠ "" ∧
               EditPersonForm.password_two cleaned_data ≠ Some p)).
Proof.
  rewrite <- passwords_differ_spec.
  unfold EditPersonForm.clean, EditPersonForm.passwords_must_match.
  destruct (truthy _ && bool_decide _); split; split; done.
Qed.

(** C5, as stated, fails: a first password of 37 characters is non-empty
    and differs from the second password "b", yet validation raises no
    'Passwords Must Match.': the field drops the over-long value and
    [clean] has nothing to compare. *)
Lemma edit_person_long_password_is_not_compared :
  "aaaaaaaaaaaaaaaaaaaaaaaaaaaaaaaaaaaaa" ≠ ""
  ∧ "aaaaaaaaaaaaaaaaaaaaaaaaaaaaaaaaaaaaa" ≠ "b"
  ∧ EditPersonForm.clean
      (EditPersonForm.submitted (ann_cleaned None None)
         "aaaaaaaaaaaaaaaaaaaaaaaaaaaaaaaaaaaaa" "b") ≠
    Raise (ValidationError (Msg "Passwords Must Match.")).
Proof. split; [done|]. split; done. Qed.

(** C5, amended.  For every pair of passwords submitted through
    EditPersonForm, validation raises 'Passwords Must Match.' if and only
    if the first password is non-empty, no longer than the 36 characters
    its field allows, and differs from the second password; otherwise
    [clean] raises nothing and returns the cleaned data. *)
Theorem edit_person_submitted_passwords_must_match
    (fields : EditPersonForm.CleanedData) (one two : string) :
  (EditPersonForm.clean (EditPersonForm.submitted fields one two) =
     Raise (ValidationError (Msg "Passwords Must Match."))
   ↔ one ≠ "" ∧ (String.length one ≤ 36)%nat ∧ one ≠ two)
  ∧ (EditPersonForm.clean (EditPersonForm.submitted fields one two) =
       Return (EditPersonForm.submitted fields one two)
     ↔ ¬ (one ≠ "" ∧ (String.length one ≤ 36)%nat ∧ one ≠ two)).
Proof.
  assert (Hcond :
    (∃ p, EditPersonForm.password_one (EditPersonForm.submitted fields one two) =
            Some p ∧ p ≠ "" ∧
          EditPersonForm.password_two (EditPersonForm.submitted fields one two) ≠
            Some p)
    ↔ one ≠ "" ∧ (String.length one ≤ 36)%nat ∧ one ≠ two).
  { simpl. unfold EditPersonForm.password_field.
    destruct (decide (String.length one ≤ 36)%nat) as [Hone|Hone].
    - rewrite (bool_decide_eq_true_2 _ Hone).
      destruct (decide (String.length two ≤ 36)%nat) as [Htwo|Htwo].
      + rewrite (bool_decide_eq_true_2 _ Htwo). split.
        * intros (p & [= <-] & Hp & Hdiff). repeat split; [done..|].
          congruence.
        * intros (Hp & _ & Hdiff). exists one. repeat split; [done..|].
          congruence.
      + rewrite (bool_decide_eq_false_2 _ Htwo). split.
        * intros (p & [= <-] & Hp & _). repeat split; [done..|].
          intros ->. done.
        * intros (Hp & _ & _). by exists one.
    - rewrite (bool_decide_eq_false_2 _ Hone). split.
      + by intros (p & [=] & _).
      + by intros (_ & Hle & _). }
  rewrite <- Hcond, <- passwords_differ_spec.
  unfold EditPersonForm.clean, EditPersonForm.passwords_must_match.
  destruct (truthy _ && bool_decide _); split; split; done.
Qed.

(** C6.  QuickSearchForm's cleaning of quick_search dispatches on the
    class of the looked-up item: the project view for a Project, the
    business view for a Business, the person view for a User, each with
    the item's id, and for an item of any other class the validation error
    'Must be a User or Project'. *)
Theorem quick_search_dispatches_on_three_classes (i : item) :
  QuickSearchForm.clean_quick_search i =
    match item_class i with
    | timepiece_Project =>
        Return (reverse "view_project" [("project_id", item_id i)])
    | timepiece_Business =>
        Return (reverse "view_business" [("business", item_id i)])
    | auth_models_User =>
        Return (reverse "view_person" [("person_id", item_id i)])
    | other_model _ =>
        Raise (ValidationError (Msg "Must be a User or Project"))
    end.
Proof.
  unfold QuickSearchForm.clean_quick_search, QuickSearchForm.isinstance.
  destruct (item_class i); reflexivity.
Qed.

Lemma model_save_user_spec (instance : User) (auth_user : gmap positive User) :
  let '(saved, tbl) := EditPersonForm.model_save instance auth_user in
  ∃ i, user_id saved = Some i ∧
       (user_id instance = Some i ∨ user_id instance = None ∧ i ∉ dom auth_user) ∧
       tbl !! i = Some saved ∧
       (∀ j, j ≠ i → tbl !! j = auth_user !! j) ∧
       username saved = username instance ∧
       first_name saved = first_name instance ∧
       last_name saved = last_name instance ∧
       email saved = email instance ∧
       is_active saved = is_active instance ∧
       is_staff saved = is_staff instance ∧
       password saved = password instance.
Proof.
  unfold EditPersonForm.model_save. simpl.
  exists (default (fresh (dom auth_user)) (user_id instance)).
  split; [done|]. split.
  - destruct (user_id instance) as [i|]; simpl; [by left|right].
    split; [done|]. apply is_fresh.
  - split; [by rewrite lookup_insert_eq|].
    split; [|done]. intros j Hj. by rewrite lookup_insert_ne.
Qed.

(** C9.  EditPersonForm.save sets the saved user's password from the first
    password field (through set_password) when that field is non-empty, and
    leaves the password as it was when the field is empty or missing; in
    both cases username, first_name, last_name, email, is_active and
    is_staff are saved from the cleaned data.  With commit the row of that
    user is written and no other row changes; without commit the table is
    untouched. *)
Theorem edit_person_save_sets_password_iff_given
    (make_password : string → string) (instance : User)
    (cleaned_data : EditPersonForm.CleanedData) (commit : bool)
    (auth_user : gmap positive User) :
  let saved :=
    (EditPersonForm.save make_password instance cleaned_data commit auth_user).1 in
  let tbl :=
    (EditPersonForm.save make_password instance cleaned_data commit auth_user).2 in
  (∀ p, EditPersonForm.password_one cleaned_data = Some p → p ≠ "" →
        password saved = make_password p)
  ∧ (EditPersonForm.password_one cleaned_data = None ∨
     EditPersonForm.password_one cleaned_data = Some "" →
     password saved = password instance)
  ∧ (username saved = EditPersonForm.cleaned_username cleaned_data ∧
     first_name saved = EditPersonForm.cleaned_first_name cleaned_data ∧
     last_name saved = EditPersonForm.cleaned_last_name cleaned_data ∧
     email saved = EditPersonForm.cleaned_email cleaned_data ∧
     is_active saved = EditPersonForm.cleaned_is_active cleaned_data ∧
     is_staff saved = EditPersonForm.cleaned_is_staff cleaned_data)
  ∧ (commit = true →
     ∃ i, user_id saved = Some i ∧
          (user_id instance = Some i ∨
           user_id instance = None ∧ i ∉ dom auth_user) ∧
          tbl !! i = Some saved ∧
          ∀ j, j ≠ i → tbl !! j = auth_user !! j)
  ∧ (commit = false → tbl = auth_user ∧ user_id saved = user_id instance).
Proof.
  cbv zeta. unfold EditPersonForm.save.
  set (inst := match EditPersonForm.password_one cleaned_data with
               | Some raw => _ | None => _ end).
  assert (Hfields :
    user_id inst = user_id instance ∧
    username inst = EditPersonForm.cleaned_username cleaned_data ∧
    first_name inst = EditPersonForm.cleaned_first_name cleaned_data ∧
    last_name inst = EditPersonForm.cleaned_last_name cleaned_data ∧
    email inst = EditPersonForm.cleaned_email cleaned_data ∧
    is_active inst = EditPersonForm.cleaned_is_active cleaned_data ∧
    is_staff inst = EditPersonForm.cleaned_is_staff cleaned_data).
  { subst inst. destruct (EditPersonForm.password_one cleaned_data) as [raw|];
      [destruct (String.eqb raw "")|]; done. }
  assert (Hset : ∀ p, EditPersonForm.password_one cleaned_data = Some p →
                      p ≠ "" → password inst = make_password p).
  { subst inst. intros p -> Hp.
    by destruct (String.eqb_spec p "") as [->|_]. }
  assert (Hkeep : EditPersonForm.password_one cleaned_data = None ∨
                  EditPersonForm.password_one cleaned_data = Some "" →
                  password inst = password instance).
  { subst inst. by intros [-> | ->]. }
  clearbody inst.
  destruct Hfields as (Hid & Hun & Hfn & Hln & Hem & Hia & His).
  destruct commit; cbv iota.
  - pose proof (model_save_user_spec inst auth_user) as Hsave.
    destruct (EditPersonForm.model_save inst auth_user) as [saved tbl].
    destruct Hsave as (i & Hi & Hkey & Hrow & Hframe & Hun' & Hfn' & Hln' &
                       Hem' & Hia' & His' & Hpw').
    cbn [fst snd]. rewrite Hpw', Hun', Hfn', Hln', Hem', Hia', His'.
    split; [done|]. split; [done|]. split; [done|]. split; [|done].
    intros _. exists i. rewrite <- Hid. done.
  - cbn [fst snd]. split; [done|]. split; [done|]. split; [done|]. split; done.
Qed.

Lemma edit_person_save_sets_password_iff_given_witness :
  password
    (EditPersonForm.save (String.append "sha1$") 
       {| user_id := Some 1%positive; username := "ann"; first_name := "Ann";
          last_name := "Lee"; email := "ann@example.com"; is_active := true;
          is_staff := false; password := "sha1$old" |}
       {| EditPersonForm.cleaned_username := "ann";
          EditPersonForm.cleaned_first_name := "Ann";
          EditPersonForm.cleaned_last_name := "Lee";
          EditPersonForm.cleaned_email := "ann@example.com";
          EditPersonForm.cleaned_is_active := true;
          EditPersonForm.cleaned_is_staff := true;
          EditPersonForm.password_one := Some "new";
          EditPersonForm.password_two := Some "new" |}
       true ∅).1 = "sha1$new".
Proof.
  refine (proj1 (edit_person_save_sets_password_iff_given _ _ _ _ _) "new" _ _);
    [reflexivity|done].
Defined.

(** ** Billing periods *)

Section repeat_period.
Context `{PeriodModels}.

Lemma save_new_active f st d :
  period_id (RepeatPeriodForm.instance f) = None →
  RepeatPeriodForm.cleaned_active (RepeatPeriodForm.cleaned_data f) = true →
  RepeatPeriodForm.cleaned_date (RepeatPeriodForm.cleaned_data f) = Some d →
  let i := fresh (dom (repeat_periods st)) in
  let saved := saved_period i f in
  RepeatPeriodForm.save f st =
    Return (saved,
            update_billing_windows saved
              (stored i saved
                 (windows st ++
                    [{| period := i; date := d;
                        end_date := date_add d (delta saved) |}]) st)).
Proof.
  intros Hid Hactive Hdate. unfold RepeatPeriodForm.save.
  unfold RepeatPeriodForm.construct_instance, RepeatPeriodForm.model_save.
  rewrite Hid, Hactive, Hdate. simpl.
  unfold saved_period, stored. by rewrite Hactive.
Qed.

Lemma save_existing_active f st i d l :
  period_id (RepeatPeriodForm.instance f) = Some i →
  RepeatPeriodForm.cleaned_active (RepeatPeriodForm.cleaned_data f) = true →
  RepeatPeriodForm.cleaned_date (RepeatPeriodForm.cleaned_data f) = Some d →
  latest (RepeatPeriodForm.billing_windows i st) = Some l →
  let saved := saved_period i f in
  RepeatPeriodForm.save f st =
    Return (saved,
            update_billing_windows saved
              (stored i saved
                 (windows st ++
                    if bool_decide (end_date l < d)
                    then [{| period := i; date := end_date l;
                             end_date := date_add d (delta saved) |}]
                    else []) st)).
Proof.
  intros Hid Hactive Hdate Hlatest. unfold RepeatPeriodForm.save.
  unfold RepeatPeriodForm.construct_instance, RepeatPeriodForm.model_save.
  rewrite Hid, Hactive, Hdate. simpl.
  unfold RepeatPeriodForm.latest_or_raise, RepeatPeriodForm.billing_windows.
  simpl. unfold RepeatPeriodForm.billing_windows in Hlatest.
  rewrite Hlatest. simpl. unfold saved_period, stored. rewrite Hactive.
  case_bool_decide; simpl; [done|]. by rewrite app_nil_r.
Qed.

Lemma clean_existing f st i d l :
  period_id (RepeatPeriodForm.instance f) = Some i →
  RepeatPeriodForm.cleaned_date (RepeatPeriodForm.cleaned_data f) = Some d →
  latest (RepeatPeriodForm.billing_windows i st) = Some l →
  RepeatPeriodForm.clean f st =
    if RepeatPeriodForm.cleaned_active (RepeatPeriodForm.cleaned_data f) &&
       bool_decide (d < end_date l)
    then Raise (ValidationError
                  (RepeatPeriodForm.new_start_date_must_be_after (end_date l)))
    else Return (RepeatPeriodForm.cleaned_data f).
Proof.
  intros Hid Hdate Hlatest. unfold RepeatPeriodForm.clean.
  rewrite Hid, Hdate. unfold RepeatPeriodForm.latest_or_raise.
  by rewrite Hlatest.
Qed.

Lemma save_hands_over_appended f st saved st' :
  RepeatPeriodForm.save f st = Return (saved, st') →
  ∃ st1, st' = update_billing_windows saved st1 ∧
         windows st `prefix_of` windows st1.
Proof.
  unfold RepeatPeriodForm.save, RepeatPeriodForm.model_save,
    RepeatPeriodForm.latest_or_raise, RepeatPeriodForm.create.
  destruct (bool_decide _ && _); simpl.
  - destruct (RepeatPeriodForm.cleaned_date _) as [d|]; simpl; [|done].
    intros [= <- <-]. eexists. split; [done|]. simpl. by apply prefix_app_r.
  - destruct (period_id (RepeatPeriodForm.instance f)) as [i|]; simpl.
    + destruct (RepeatPeriodForm.cleaned_date _) as [d|]; simpl.
      * destruct (RepeatPeriodForm.cleaned_active _); simpl.
        -- destruct (latest _) as [l|]; simpl; [|done].
           case_bool_decide; simpl; intros [= <- <-]; eexists;
             (split; [done|]); simpl; [by apply prefix_app_r|done].
        -- intros [= <- <-]. eexists. by split.
      * intros [= <- <-]. eexists. by split.
    + intros [= <- <-]. eexists. by split.
Qed.

(** C2.  RepeatPeriodForm.save implements the billing rollover.  Saving a
    new period that is active stores the period and creates exactly one
    billing window, with date = the cleaned date and end_date = that date
    plus the period's delta.  Saving an existing period that is active,
    with a start date supplied, appends exactly one window, with date = the
    latest window's end_date and end_date = the new start date plus delta,
    when the new start date is strictly greater than the latest window's
    end_date, and appends nothing otherwise.  The store so obtained is what
    update_billing_windows receives. *)
Theorem repeat_period_save_billing_rollover
    (f : RepeatPeriodForm.Form) (st : Store) :
  RepeatPeriodForm.cleaned_active (RepeatPeriodForm.cleaned_data f) = true →
  (∀ d,
     period_id (RepeatPeriodForm.instance f) = None →
     RepeatPeriodForm.cleaned_date (RepeatPeriodForm.cleaned_data f) = Some d →
     let i := fresh (dom (repeat_periods st)) in
     let saved := saved_period i f in
     RepeatPeriodForm.save f st =
       Return (saved,
               update_billing_windows saved
                 (stored i saved
                    (windows st ++
                       [{| period := i; date := d;
                           end_date := date_add d (delta saved) |}]) st)))
  ∧ (∀ i d l,
       period_id (RepeatPeriodForm.instance f) = Some i →
       RepeatPeriodForm.cleaned_date (RepeatPeriodForm.cleaned_data f) = Some d →
       latest (RepeatPeriodForm.billing_windows i st) = Some l →
       let saved := saved_period i f in
       (end_date l < d →
        RepeatPeriodForm.save f st =
          Return (saved,
                  update_billing_windows saved
                    (stored i saved
                       (windows st ++
                          [{| period := i; date := end_date l;
                              end_date := date_add d (delta saved) |}]) st)))
       ∧ (d ≤ end_date l →
          RepeatPeriodForm.save f st =
            Return (saved,
                    update_billing_windows saved
                      (stored i saved (windows st) st)))).
Proof.
  intros Hactive. split.
  - intros d Hid Hdate. by apply save_new_active.
  - intros i d l Hid Hdate Hlatest saved.
    pose proof (save_existing_active f st i d l Hid Hactive Hdate Hlatest) as Hs.
    cbv zeta in Hs. fold saved in Hs. split; intros Hcmp.
    + by rewrite bool_decide_eq_true_2 in Hs.
    + rewrite bool_decide_eq_false_2 in Hs by lia. by rewrite app_nil_r in Hs.
Qed.

Lemma save_existing_outcome f st i saved st' :
  period_id (RepeatPeriodForm.instance f) = Some i →
  RepeatPeriodForm.save f st = Return (saved, st') →
  saved = saved_period i f ∧
  ∃ new,
    st' = update_billing_windows saved
            (stored i saved (windows st ++ new) st) ∧
    ((new = [] ∧
      ¬ (RepeatPeriodForm.cleaned_active (RepeatPeriodForm.cleaned_data f) = true ∧
         ∃ d l,
           RepeatPeriodForm.cleaned_date (RepeatPeriodForm.cleaned_data f) = Some d ∧
           latest (RepeatPeriodForm.billing_windows i st) = Some l ∧
           end_date l < d))
     ∨ (∃ d l,
          RepeatPeriodForm.cleaned_active (RepeatPeriodForm.cleaned_data f) = true ∧
          RepeatPeriodForm.cleaned_date (RepeatPeriodForm.cleaned_data f) = Some d ∧
          latest (RepeatPeriodForm.billing_windows i st) = Some l ∧
          end_date l < d ∧
          new = [{| period := i; date := end_date l;
                    end_date := date_add d (delta saved) |}])).
Proof.
  intros Hid.
  unfold RepeatPeriodForm.save, RepeatPeriodForm.model_save,
    RepeatPeriodForm.latest_or_raise, RepeatPeriodForm.create,
    RepeatPeriodForm.billing_windows, RepeatPeriodForm.construct_instance,
    saved_period, stored.
  simpl. rewrite Hid. simpl.
  destruct (RepeatPeriodForm.cleaned_date _) as [d|] eqn:Hdate; simpl.
  - destruct (RepeatPeriodForm.cleaned_active _) eqn:Hact; simpl.
    + destruct (latest _) as [l|] eqn:Hl; simpl; [|done].
      case_bool_decide as Hcmp; simpl; intros [= <- <-]; (split; [done|]).
      * eexists. split; [done|]. right. by exists d, l.
      * exists []. rewrite app_nil_r. split; [done|]. left. split; [done|].
        intros (_ & d' & l' & [= <-] & Hl' & Hlt).
        injection Hl' as <-. done.
    + intros [= <- <-]. split; [done|].
      exists []. rewrite app_nil_r. split; [done|]. left. split; [done|].
      by intros ([=] & _).
  - intros [= <- <-]. split; [by destruct (RepeatPeriodForm.cleaned_active _)|].
    exists []. rewrite app_nil_r. split.
    + by destruct (RepeatPeriodForm.cleaned_active _).
    + left. split; [done|]. by intros (_ & d' & l' & [=] & _).
Qed.

(** C3, amended.  A billing window that RepeatPeriodForm.save appends to an
    existing active period starts at the latest window's end date and ends
    at the new start date plus the period's delta, the new start date being
    strictly after the latest window's end date; save appends such a window
    for such a start date, it appends at most this one window to an
    existing period, and none in any other case.  The form only appends:
    when update_billing_windows keeps the windows it is given, every window
    stored before save is still there afterwards, unchanged and in place. *)
Theorem repeat_period_save_appends_from_latest_end
    (f : RepeatPeriodForm.Form) (st : Store) :
  (∀ i d l,
     period_id (RepeatPeriodForm.instance f) = Some i →
     RepeatPeriodForm.cleaned_active (RepeatPeriodForm.cleaned_data f) = true →
     RepeatPeriodForm.cleaned_date (RepeatPeriodForm.cleaned_data f) = Some d →
     latest (RepeatPeriodForm.billing_windows i st) = Some l →
     end_date l < d →
     let saved := saved_period i f in
     RepeatPeriodForm.save f st =
       Return (saved,
               update_billing_windows saved
                 (stored i saved
                    (windows st ++
                       [{| period := i; date := end_date l;
                           end_date := date_add d (delta saved) |}]) st)))
  ∧ (∀ i saved st',
       period_id (RepeatPeriodForm.instance f) = Some i →
       RepeatPeriodForm.save f st = Return (saved, st') →
       saved = saved_period i f ∧
       ∃ new,
         st' = update_billing_windows saved
                 (stored i saved (windows st ++ new) st) ∧
         ((new = [] ∧
           ¬ (RepeatPeriodForm.cleaned_active (RepeatPeriodForm.cleaned_data f) =
                true ∧
              ∃ d l,
                RepeatPeriodForm.cleaned_date (RepeatPeriodForm.cleaned_data f) =
                  Some d ∧
                latest (RepeatPeriodForm.billing_windows i st) = Some l ∧
                end_date l < d))
          ∨ (∃ d l,
               RepeatPeriodForm.cleaned_active (RepeatPeriodForm.cleaned_data f) =
                 true ∧
               RepeatPeriodForm.cleaned_date (RepeatPeriodForm.cleaned_data f) =
                 Some d ∧
               latest (RepeatPeriodForm.billing_windows i st) = Some l ∧
               end_date l < d ∧
               new = [{| period := i; date := end_date l;
                         end_date := date_add d (delta saved) |}])))
  ∧ ((∀ p s, windows s `prefix_of` windows (update_billing_windows p s)) →
     ∀ saved st',
       RepeatPeriodForm.save f st = Return (saved, st') →
       windows st `prefix_of` windows st').
Proof.
  split; [|split].
  - intros i d l Hid Hactive Hdate Hlatest Hcmp saved.
    pose proof (save_existing_active f st i d l Hid Hactive Hdate Hlatest) as Hs.
    cbv zeta in Hs. by rewrite bool_decide_eq_true_2 in Hs.
  - intros i saved st' Hid Hsave. by apply save_existing_outcome.
  - intros Hupd saved st' Hsave.
    apply save_hands_over_appended in Hsave as (st1 & -> & Hpre).
    etrans; [exact Hpre|apply Hupd].
Qed.

(** C10.  For an existing active period edited with a start date supplied,
    validation raises 'New start date must be after ...' (with the latest
    window's end_date) exactly when the date is strictly before the latest
    window's end_date, and passes otherwise; a date equal to the latest
    window's end_date passes validation, and save then appends no billing
    window. *)
Theorem repeat_period_start_date_at_latest_end
    (f : RepeatPeriodForm.Form) (st : Store) (i : positive) (d : Date)
    (l : BillingWindow) :
  period_id (RepeatPeriodForm.instance f) = Some i →
  RepeatPeriodForm.cleaned_active (RepeatPeriodForm.cleaned_data f) = true →
  RepeatPeriodForm.cleaned_date (RepeatPeriodForm.cleaned_data f) = Some d →
  latest (RepeatPeriodForm.billing_windows i st) = Some l →
  (RepeatPeriodForm.clean f st =
     Raise (ValidationError
              (MsgFormat "New start date must be after %s" [ArgDate (end_date l)]))
   ↔ d < end_date l)
  ∧ (RepeatPeriodForm.clean f st = Return (RepeatPeriodForm.cleaned_data f)
     ↔ end_date l ≤ d)
  ∧ (d = end_date l →
     RepeatPeriodForm.clean f st = Return (RepeatPeriodForm.cleaned_data f) ∧
     RepeatPeriodForm.save f st =
       Return (saved_period i f,
               update_billing_windows (saved_period i f)
                 (stored i (saved_period i f) (windows st) st))).
Proof.
  intros Hid Hactive Hdate Hlatest.
  pose proof (clean_existing f st i d l Hid Hdate Hlatest) as Hclean.
  rewrite Hactive in Hclean. simpl in Hclean.
  pose proof (save_existing_active f st i d l Hid Hactive Hdate Hlatest) as Hs.
  cbv zeta in Hs. rewrite Hclean.
  unfold RepeatPeriodForm.new_start_date_must_be_after.
  destruct (decide (d < end_date l)) as [Hcmp|Hcmp].
  - rewrite (bool_decide_eq_true_2 _ Hcmp).
    split; [split; [intros _; exact Hcmp|done]|].
    split; [split; [done|lia]|]. intros ->. lia.
  - rewrite (bool_decide_eq_false_2 _ Hcmp).
    split; [split; [done|lia]|]. split; [split; [lia|done]|].
    intros ->. split; [done|].
    rewrite bool_decide_eq_false_2 in Hs by lia. by rewrite app_nil_r in Hs.
Qed.

End repeat_period.

Lemma repeat_period_save_billing_rollover_witness :
  RepeatPeriodForm.save (H := day_models) (new_form (Some 3)) empty_store =
    Return (saved_period 1 (new_form (Some 3)),
            stored 1 (saved_period 1 (new_form (Some 3)))
              [{| period := 1; date := 3; end_date := 10 |}] empty_store)
  ∧ RepeatPeriodForm.save (H := day_models) (edit_form (Some 10)) one_window_store =
      Return (saved_period 1 (edit_form (Some 10)),
              stored 1 (saved_period 1 (edit_form (Some 10)))
                [first_window; {| period := 1; date := 7; end_date := 17 |}]
                one_window_store).
Proof.
  split.
  - exact (proj1 (repeat_period_save_billing_rollover (H := day_models)
                    (new_form (Some 3)) empty_store eq_refl)
             3 eq_refl eq_refl).
  - refine (proj1 (proj2 (repeat_period_save_billing_rollover (H := day_models)
                            (edit_form (Some 10)) one_window_store eq_refl)
                     1%positive 10 first_window eq_refl eq_refl eq_refl) _).
    simpl. lia.
Defined.

(** C3, as stated, fails: the window appended to a weekly period whose
    latest window ends on day 7, for the new start date 10, ends on day 17,
    the new start date plus the delta, and not on day 14, the latest end
    plus the delta. *)
Lemma repeat_period_window_end_is_not_latest_end_plus_delta :
  latest (PeriodModels := day_models)
    (RepeatPeriodForm.billing_windows 1 one_window_store) = Some first_window
  ∧ RepeatPeriodForm.save (H := day_models) (edit_form (Some 10)) one_window_store =
      Return (saved_period 1 (edit_form (Some 10)),
              stored 1 (saved_period 1 (edit_form (Some 10)))
                [first_window; {| period := 1; date := 7; end_date := 17 |}]
                one_window_store)
  ∧ 17 ≠ date_add (PeriodModels := day_models) (end_date first_window)
           (delta (PeriodModels := day_models)
              (saved_period 1 (edit_form (Some 10)))).
Proof. split; [reflexivity|]. split; [reflexivity|]. simpl. lia. Qed.

Lemma repeat_period_save_appends_from_latest_end_witness :
  windows one_window_store `prefix_of`
    windows (stored 1 (saved_period 1 (edit_form (Some 10)))
               [first_window; {| period := 1; date := 7; end_date := 17 |}]
               one_window_store).
Proof.
  refine (proj2 (proj2 (repeat_period_save_appends_from_latest_end
                          (H := day_models) (edit_form (Some 10))
                          one_window_store)) _ _ _ _).
  - intros p s. simpl. done.
  - reflexivity.
Defined.

Lemma repeat_period_start_date_at_latest_end_witness :
  RepeatPeriodForm.clean (H := day_models) (edit_form (Some 7)) one_window_store =
    Return (weekly_cleaned (Some 7))
  ∧ RepeatPeriodForm.save (H := day_models) (edit_form (Some 7)) one_window_store =
      Return (saved_period 1 (edit_form (Some 7)),
              stored 1 (saved_period 1 (edit_form (Some 7)))
                [first_window] one_window_store).
Proof.
  refine (proj2 (proj2 (repeat_period_start_date_at_latest_end (H := day_models)
                          (edit_form (Some 7)) one_window_store 1%positive 7
                          first_window eq_refl eq_refl eq_refl eq_refl)) _).
  reflexivity.
Defined.

(** ** Entry forms: further properties *)

Lemma add_update_clean_both_times u db now1 now2 start end_ :
  AddUpdateEntryForm.clean u db now1 now2 (Some start) (Some end_) ≠
    Raise (ValidationError AddUpdateEntryForm.invalid_times).
Proof.
  intros Hc.
  by apply add_update_clean_raise in Hc as [[[=] _]|(_ & _ & e & _ & _ & [=])].
Qed.

(** X1.  AddUpdateEntryForm.clean raises 'Please enter a valid start and
    end date/time.' exactly when the start or the end is missing, whatever
    the clock and the stored entries are. *)
Theorem add_update_missing_times_rejected
    (u : positive) (db : list Entry) (now1 now2 : DateTime)
    (cleaned_start cleaned_end : option DateTime) :
  AddUpdateEntryForm.clean u db now1 now2 cleaned_start cleaned_end =
    Raise (ValidationError (Msg "Please enter a valid start and end date/time."))
  ↔ (cleaned_start = None ∨ cleaned_end = None).
Proof.
  destruct cleaned_start as [start|], cleaned_end as [end_|].
  - split.
    + intros Hc. by apply add_update_clean_both_times in Hc.
    + by intros [[=]|[=]].
  - split; [by right|done].
  - split; [by left|done].
  - split; [by left|done].
Qed.

(** X2.  AddUpdateEntryForm.clean accepts an entry, returning its times, if
    and only if both times are present, the start is before the clock, the
    end is not after it, and every open entry of the user starts strictly
    after both the start and the end. *)
Theorem add_update_accepts_iff
    (u : positive) (db : list Entry) (now1 now2 : DateTime)
    (cleaned_start cleaned_end : option DateTime) (start end_ : DateTime) :
  AddUpdateEntryForm.clean u db now1 now2 cleaned_start cleaned_end =
    Return (start, end_)
  ↔ (cleaned_start = Some start ∧ cleaned_end = Some end_ ∧
     start < now1 ∧ end_ ≤ now2 ∧
     ∀ e, e ∈ db → user e = u → end_time e = None →
          start < start_time e ∧ end_ < start_time e).
Proof.
  split.
  - intros Hc.
    destruct (add_update_clean_return_times _ _ _ _ _ _ _ Hc) as [-> ->].
    simpl. apply add_update_clean_return in Hc as (_ & Hs & He & Hall).
    repeat (split; [done|]). intros e Hin Hu Hopen.
    destruct (Hall e (conj Hin (conj Hu Hopen))). by split.
  - intros (-> & -> & Hs & He & Hall).
    destruct (AddUpdateEntryForm.clean u db now1 now2 (Some start) (Some end_))
      as [r|x] eqn:Hc.
    + by apply add_update_clean_return in Hc as (-> & _).
    + apply add_update_clean_raise in Hc
        as [[_ Hfut]|(_ & _ & e & (Hin & Hu & Hopen) & Hle & _)]; [lia|].
      specialize (Hall e Hin Hu Hopen). lia.
Qed.

Lemma queryset_of_open_entries (P : Entry → Prop) `{!∀ e, Decision (P e)}
    u db :
  filter (λ e, P e ∧ end_time e = None) (timepiece_entries u db) =
  filter P (open_entries u db).
Proof.
  unfold timepiece_entries, open_entries. rewrite !list_filter_filter.
  apply list_filter_iff. tauto.
Qed.

(** X3.  Both entry checks depend on the user's open entries only: two
    tables with the same open entries of the user give the same result,
    whatever closed entries and entries of other users they hold. *)
Theorem entry_checks_depend_on_open_entries_only
    (u : positive) (db1 db2 : list Entry) :
  open_entries u db1 = open_entries u db2 →
  (∀ start, ClockInForm.clean_start_time u db1 start =
            ClockInForm.clean_start_time u db2 start)
  ∧ (∀ now1 now2 cleaned_start cleaned_end,
       AddUpdateEntryForm.clean u db1 now1 now2 cleaned_start cleaned_end =
       AddUpdateEntryForm.clean u db2 now1 now2 cleaned_start cleaned_end).
Proof.
  intros Hopen. split.
  - intros start. unfold ClockInForm.clean_start_time.
    by rewrite !(queryset_of_open_entries (λ e, start ≤ start_time e)), Hopen.
  - intros now1 now2 [start|] [end_|]; try done.
    unfold AddUpdateEntryForm.clean.
    assert (Hq : ∀ db,
      filter (λ e, (start_time e ≤ end_ ∧ end_time e = None) ∨
                   (start_time e ≤ start ∧ end_time e = None))
             (timepiece_entries u db) =
      filter (λ e, start_time e ≤ end_ ∨ start_time e ≤ start)
             (open_entries u db)).
    { intros db.
      rewrite <- (queryset_of_open_entries
                    (λ e, start_time e ≤ end_ ∨ start_time e ≤ start)).
      apply list_filter_iff. tauto. }
    by rewrite !Hq, Hopen.
Qed.

Lemma entry_checks_depend_on_open_entries_only_witness :
  ClockInForm.clean_start_time 1
    [closed_entry 1 0 5; open_entry 1 10; open_entry 2 50] 20 =
  ClockInForm.clean_start_time 1 [open_entry 1 10] 20.
Proof.
  apply (entry_checks_depend_on_open_entries_only 1
           [closed_entry 1 0 5; open_entry 1 10; open_entry 2 50]
           [open_entry 1 10]).
  reflexivity.
Defined.

(** X4.  ClockInForm accepts every start time later than one it accepts. *)
Theorem clock_in_accepts_later_start
    (u : positive) (db : list Entry) (start start' : DateTime) :
  ClockInForm.clean_start_time u db start = Return start →
  start ≤ start' →
  ClockInForm.clean_start_time u db start' = Return start'.
Proof.
  intros Hc Hle. apply clean_start_time_return in Hc as [_ Hall].
  destruct (ClockInForm.clean_start_time u db start') as [s|x] eqn:Hc'.
  - by apply clean_start_time_return in Hc' as [-> _].
  - apply clean_start_time_raise in Hc' as (e & Ho & Hge & _).
    specialize (Hall e Ho). lia.
Qed.

Lemma clock_in_accepts_later_start_witness :
  ClockInForm.clean_start_time 1 [open_entry 1 10] 30 = Return 30.
Proof.
  apply (clock_in_accepts_later_start 1 [open_entry 1 10] 20 30);
    [reflexivity|lia].
Defined.

(** X5.  AddUpdateEntryForm accepts every entry whose start and end are not
    later than those of an entry it accepts (against the same clock
    readings). *)
Theorem add_update_accepts_earlier_times
    (u : positive) (db : list Entry) (now1 now2 start end_ start' end' : DateTime) :
  AddUpdateEntryForm.clean u db now1 now2 (Some start) (Some end_) =
    Return (start, end_) →
  start' ≤ start → end' ≤ end_ →
  AddUpdateEntryForm.clean u db now1 now2 (Some start') (Some end') =
    Return (start', end').
Proof.
  intros Hc Hs He. apply add_update_clean_return in Hc as (_ & Hn1 & Hn2 & Hall).
  destruct (AddUpdateEntryForm.clean u db now1 now2 (Some start') (Some end'))
    as [r|x] eqn:Hc'.
  - by apply add_update_clean_return in Hc' as (-> & _).
  - apply add_update_clean_raise in Hc'
      as [[_ Hfut]|(_ & _ & e & Ho & Hle & _)]; [lia|].
    specialize (Hall e Ho). lia.
Qed.

Lemma add_update_accepts_earlier_times_witness :
  AddUpdateEntryForm.clean 1 [open_entry 1 60] 100 100 (Some 10) (Some 30) =
    Return (10, 30).
Proof.
  apply (add_update_accepts_earlier_times 1 [open_entry 1 60] 100 100 20 40 10 30);
    [reflexivity|lia|lia].
Defined.

(** X6.  The conflict query does not leave out the entry being edited: as
    long as the user has an open entry stored, no entry whose start or end
    is at or after that entry's start validates, the open entry's own
    times included. *)
Theorem add_update_refuses_times_of_open_entry
    (u : positive) (db : list Entry) (now1 now2 : DateTime) (e : Entry)
    (start end_ : DateTime) (r : DateTime * DateTime) :
  e ∈ db → user e = u → end_time e = None →
  start_time e ≤ start ∨ start_time e ≤ end_ →
  AddUpdateEntryForm.clean u db now1 now2 (Some start) (Some end_) ≠ Return r.
Proof.
  intros Hin Hu Hopen Hle Hc.
  apply add_update_clean_return in Hc as (_ & _ & _ & Hall).
  specialize (Hall e (conj Hin (conj Hu Hopen))). lia.
Qed.

Lemma add_update_refuses_times_of_open_entry_witness :
  AddUpdateEntryForm.clean 1 [open_entry 1 30] 100 100 (Some 30) (Some 40) ≠
    Return (30, 40).
Proof.
  apply (add_update_refuses_times_of_open_entry 1 [open_entry 1 30] 100 100
           (open_entry 1 30) 30 40 (30, 40)); [by left|done|done|].
  left. simpl. lia.
Defined.

(** X7.  While the user has an open entry, the two forms accept disjoint
    times: an entry AddUpdateEntryForm accepts starts and ends strictly
    before every start time ClockInForm accepts. *)
Theorem add_update_times_before_clock_in_start
    (u : positive) (db : list Entry) (now1 now2 : DateTime)
    (cleaned_start cleaned_end : option DateTime)
    (start end_ clock_in_start : DateTime) (e : Entry) :
  e ∈ db → user e = u → end_time e = None →
  AddUpdateEntryForm.clean u db now1 now2 cleaned_start cleaned_end =
    Return (start, end_) →
  ClockInForm.clean_start_time u db clock_in_start = Return clock_in_start →
  start < clock_in_start ∧ end_ < clock_in_start.
Proof.
  intros Hin Hu Hopen Hadd Hclock.
  destruct (add_update_clean_return_times _ _ _ _ _ _ _ Hadd) as [-> ->].
  simpl in Hadd. apply add_update_clean_return in Hadd as (_ & _ & _ & Hall).
  apply clean_start_time_return in Hclock as [_ Hbefore].
  specialize (Hall e (conj Hin (conj Hu Hopen))).
  specialize (Hbefore e (conj Hin (conj Hu Hopen))). lia.
Qed.

Lemma add_update_times_before_clock_in_start_witness :
  (AddUpdateEntryForm.clean 1 [open_entry 1 60] 100 100 (Some 20) (Some 40) =
     Return (20, 40) ∧
   ClockInForm.clean_start_time 1 [open_entry 1 60] 70 = Return 70) ∧
  (20 < 70 ∧ 40 < 70).
Proof.
  split; [by split|].
  apply (add_update_times_before_clock_in_start 1 [open_entry 1 60] 100 100
           (Some 20) (Some 40) 20 40 70 (open_entry 1 60));
    [by left|done|done|reflexivity|reflexivity].
Defined.

(** ** Setting up the clock-in form *)

(** X8.  ClockInForm.__init__ puts the default location into the form's
    initial data only when the caller passed an [initial] dictionary: then
    the setting's location, if the setting is non-empty and names a stored
    location, is written under 'location' and every other key is kept;
    without an [initial] keyword the form gets no initial data at all, and
    without a usable setting the keyword is passed on as it is. *)
Theorem clock_in_default_location_needs_initial
    (default_loc : option string) (locations : gmap string positive)
    (projects : list Project) (profile : option (option Z)) (now : DateTime)
    (u : positive) (initial : option (gmap string py_value)) :
  let form := ClockInForm.init default_loc locations projects profile now u
                initial in
  (initial = None → ClockInForm.kwargs_initial form = None)
  ∧ (∀ d slug loc_pk,
       initial = Some d → default_loc = Some slug → slug ≠ "" →
       locations !! slug = Some loc_pk →
       ∃ d', ClockInForm.kwargs_initial form = Some d' ∧
             d' !! "location" = Some (PyInt (Z.pos loc_pk)) ∧
             ∀ key, key ≠ "location" → d' !! key = d !! key)
  ∧ (default_loc = None ∨ default_loc = Some "" ∨
     (∃ slug, default_loc = Some slug ∧ locations !! slug = None) →
     ClockInForm.kwargs_initial form = initial).
Proof.
  cbv zeta. unfold ClockInForm.init. simpl. split; [|split].
  - intros ->. destruct default_loc as [slug|]; [|done].
    destruct (negb (String.eqb slug "")); [|done].
    by destruct (locations !! slug).
  - intros d slug loc_pk -> -> Hslug Hloc.
    destruct (String.eqb_spec slug "") as [->|_]; [done|]. simpl.
    rewrite Hloc. eexists. split; [done|]. split.
    + by rewrite lookup_insert_eq.
    + intros key Hkey. by rewrite lookup_insert_ne.
  - intros [->|[->|(slug & -> & Hloc)]]; [done..|].
    rewrite Hloc. by destruct (negb (String.eqb slug "")).
Qed.

Lemma clock_in_default_location_needs_initial_witness :
  ClockInForm.kwargs_initial
    (ClockInForm.init (Some "office") {["office" := 3%positive]} [] None 0 1
       None) = None
  ∧ ∃ d', ClockInForm.kwargs_initial
            (ClockInForm.init (Some "office") {["office" := 3%positive]} []
               None 0 1 (Some {["project" := PyInt 5]})) = Some d' ∧
          d' !! "location" = Some (PyInt 3) ∧
          ∀ key, key ≠ "location" →
                 d' !! key = ({["project" := PyInt 5]} : gmap string py_value) !! key.
Proof.
  split.
  - exact (proj1 (clock_in_default_location_needs_initial (Some "office")
                    {["office" := 3%positive]} [] None 0 1 None) eq_refl).
  - refine (proj1 (proj2 (clock_in_default_location_needs_initial (Some "office")
                            {["office" := 3%positive]} [] None 0 1
                            (Some {["project" := PyInt 5]})))
              {["project" := PyInt 5]} "office" 3%positive eq_refl eq_refl _ eq_refl).
    done.
Defined.

(** X9.  The projects ClockInForm offers are the projects
    AddUpdateEntryForm offers, the projects the user is a member of, with
    time tracking enabled by both their status and their type; they come in
    the same order. *)
Theorem clock_in_projects_are_tracked_projects_of_user
    (default_loc : option string) (locations : gmap string positive)
    (projects : list Project) (profile : option (option Z)) (now : DateTime)
    (u : positive) (initial : option (gmap string py_value)) :
  let offered :=
    ClockInForm.project_queryset
      (ClockInForm.init default_loc locations projects profile now u initial) in
  (∀ p, p ∈ offered ↔
        p ∈ AddUpdateEntryForm.project_queryset u projects ∧
        status_enable_timetracking p = true ∧
        type_enable_timetracking p = true)
  ∧ (∀ p, p ∈ AddUpdateEntryForm.project_queryset u projects ↔
          p ∈ projects ∧ u ∈ users p)
  ∧ offered `sublist_of` AddUpdateEntryForm.project_queryset u projects.
Proof.
  cbv zeta. unfold ClockInForm.init, AddUpdateEntryForm.project_queryset,
    projects_of. simpl. split; [|split].
  - intros p. rewrite list_elem_of_filter. tauto.
  - intros p. rewrite list_elem_of_filter. tauto.
  - apply sublist_filter.
Qed.

(** ** Clocking out *)

Lemma clock_out_saved_entry unpause instance cleaned_data commit k db :
  (ClockOutForm.save unpause instance cleaned_data commit k db).1 =
  unpause (ClockOutForm.cleaned_end_time cleaned_data)
    {| entry := {| user := user (entry instance);
                   project := project (entry instance);
                   activity := activity (entry instance);
                   start_time := ClockOutForm.cleaned_start_time cleaned_data;
                   end_time := Some (ClockOutForm.cleaned_end_time cleaned_data) |};
       location := ClockOutForm.cleaned_location cleaned_data;
       comments := ClockOutForm.cleaned_comments cleaned_data |}.
Proof. unfold ClockOutForm.save. by destruct commit. Qed.

(** X10.  Clocking out closes the entry.  When the model's unpause leaves
    the user and the end time of an entry alone, ClockOutForm.save with
    commit writes the instance's row with end_time = the cleaned end time
    and changes no other row, so the table gains no open entry; and when
    that row held the user's only open entry, ClockInForm afterwards
    accepts every start time for that user. *)
Theorem clock_out_closes_entry
    (unpause : DateTime → EntryRow → EntryRow) (instance : EntryRow)
    (cleaned_data : ClockOutForm.CleanedData) (k : nat) (db : list EntryRow) :
  (∀ t r, user (entry (unpause t r)) = user (entry r) ∧
          end_time (entry (unpause t r)) = end_time (entry r)) →
  db !! k = Some instance →
  let saved := (ClockOutForm.save unpause instance cleaned_data true k db).1 in
  let db' := (ClockOutForm.save unpause instance cleaned_data true k db).2 in
  end_time (entry saved) = Some (ClockOutForm.cleaned_end_time cleaned_data)
  ∧ user (entry saved) = user (entry instance)
  ∧ db' !! k = Some saved
  ∧ (∀ j, j ≠ k → db' !! j = db !! j)
  ∧ (∀ u e, open_entry_of u (entry <$> db') e → open_entry_of u (entry <$> db) e)
  ∧ (∀ u, (∀ j r, j ≠ k → db !! j = Some r → user (entry r) = u →
                  end_time (entry r) ≠ None) →
          ∀ start, ClockInForm.clean_start_time u (entry <$> db') start =
                   Return start).
Proof.
  intros Hunpause Hk. cbv zeta.
  pose proof (clock_out_saved_entry unpause instance cleaned_data true k db)
    as Hsaved.
  set (saved := (ClockOutForm.save unpause instance cleaned_data true k db).1)
    in *.
  assert (Hdb : (ClockOutForm.save unpause instance cleaned_data true k db).2 =
                <[k := saved]> db) by done.
  rewrite Hdb. clearbody saved.
  assert (Hend : end_time (entry saved) =
                 Some (ClockOutForm.cleaned_end_time cleaned_data)).
  { rewrite Hsaved. by destruct (Hunpause
      (ClockOutForm.cleaned_end_time cleaned_data)
      {| entry := {| user := user (entry instance);
                     project := project (entry instance);
                     activity := activity (entry instance);
                     start_time := ClockOutForm.cleaned_start_time cleaned_data;
                     end_time := Some (ClockOutForm.cleaned_end_time cleaned_data) |};
         location := ClockOutForm.cleaned_location cleaned_data;
         comments := ClockOutForm.cleaned_comments cleaned_data |}) as [_ ->]. }
  assert (Huser : user (entry saved) = user (entry instance)).
  { rewrite Hsaved. by destruct (Hunpause
      (ClockOutForm.cleaned_end_time cleaned_data)
      {| entry := {| user := user (entry instance);
                     project := project (entry instance);
                     activity := activity (entry instance);
                     start_time := ClockOutForm.cleaned_start_time cleaned_data;
                     end_time := Some (ClockOutForm.cleaned_end_time cleaned_data) |};
         location := ClockOutForm.cleaned_location cleaned_data;
         comments := ClockOutForm.cleaned_comments cleaned_data |}) as [-> _]. }
  assert (Hlt : (k < length db)%nat) by (by eapply lookup_lt_Some).
  assert (Hrows : ∀ u e, open_entry_of u (entry <$> <[k := saved]> db) e →
                    ∃ j r, j ≠ k ∧ db !! j = Some r ∧ entry r = e ∧
                           user e = u ∧ end_time e = None).
  { intros u e (Hin & Hu & Hopen).
    apply list_elem_of_fmap in Hin as (r & -> & Hr).
    apply list_elem_of_lookup in Hr as (j & Hj).
    destruct (decide (j = k)) as [->|Hne].
    - rewrite list_lookup_insert_eq in Hj by done. injection Hj as <-.
      congruence.
    - rewrite list_lookup_insert_ne in Hj by done. by exists j, r. }
  split; [done|]. split; [done|]. split; [by apply list_lookup_insert_eq|].
  split; [intros j Hj; by apply list_lookup_insert_ne|]. split.
  - intros u e (j & r & _ & Hj & <- & Hu & Hopen)%Hrows.
    repeat split; [|done..]. apply list_elem_of_fmap. exists r.
    split; [done|]. by eapply list_elem_of_lookup_2.
  - intros u Honly start.
    destruct (ClockInForm.clean_start_time u (entry <$> <[k := saved]> db) start)
      as [s|x] eqn:Hc.
    + by apply clean_start_time_return in Hc as [-> _].
    + apply clean_start_time_raise in Hc as (e & Ho & _).
      apply Hrows in Ho as (j & r & Hne & Hj & <- & Hu & Hopen).
      by destruct (Honly j r Hne Hj Hu).
Qed.

Lemma clock_out_closes_entry_witness :
  ClockInForm.clean_start_time 1
    (entry <$> (ClockOutForm.save (λ _ r, r) (entry_row 1 10 None)
                  (clock_out_at 10 20) true 1
                  [entry_row 1 0 (Some 5); entry_row 1 10 None]).2) 15 =
  Return 15.
Proof.
  refine (proj2 (proj2 (proj2 (proj2 (proj2
            (clock_out_closes_entry (λ _ r, r) (entry_row 1 10 None)
               (clock_out_at 10 20) 1
               [entry_row 1 0 (Some 5); entry_row 1 10 None] _ eq_refl)))))
            1%positive _ 15).
  - done.
  - intros [|[|j]] r Hj Hr Hu; [|done|done].
    injection Hr as <-. done.
Defined.

(** ** Date ranges *)

(** X11.  DateForm.save turns the inclusive last day into an exclusive
    bound: for a to_date before date.max the pair it returns bounds, as a
    half-open range, exactly the days from from_date to to_date; from_date
    is returned as it is, a missing to_date is returned as it is, and for
    to_date = date.max the addition overflows. *)
Theorem date_form_save_makes_end_exclusive (from_date : date_value) :
  (∀ from to, from_date = ADate from → to < date_max →
     ∃ hi, DateForm.save from_date (ADate to) = Some (ADate from, ADate hi) ∧
           ∀ d, from ≤ d < hi ↔ from ≤ d ≤ to)
  ∧ (∀ to_date r, DateForm.save from_date to_date = Some r → r.1 = from_date)
  ∧ DateForm.save from_date EmptyString = Some (from_date, EmptyString)
  ∧ DateForm.save from_date NoDate = Some (from_date, NoDate)
  ∧ DateForm.save from_date (ADate date_max) = None.
Proof.
  split; [|split; [|done]].
  - intros from to -> Hlt. exists (to + 1). split; [|intros d; lia].
    unfold DateForm.save. by rewrite bool_decide_eq_true_2 by lia.
  - intros [| |d] r; unfold DateForm.save; [by intros [= <-]..|].
    case_bool_decide; [by intros [= <-]|done].
Qed.

Lemma date_form_save_makes_end_exclusive_witness :
  ∃ hi, DateForm.save (ADate 10) (ADate 16) = Some (ADate 10, ADate hi) ∧
        ∀ d, 10 ≤ d < hi ↔ 10 ≤ d ≤ 16.
Proof.
  apply (proj1 (date_form_save_makes_end_exclusive (ADate 10)) 10 16);
    [reflexivity|unfold date_max; lia].
Defined.

(** ** People: validation and saving together *)

Lemma edit_person_saved_password make_password instance cleaned_data commit tbl :
  password (EditPersonForm.save make_password instance cleaned_data commit tbl).1 =
  match EditPersonForm.password_one cleaned_data with
  | Some raw => if negb (String.eqb raw "") then make_password raw
                else password instance
  | None => password instance
  end.
Proof.
  unfold EditPersonForm.save.
  set (inst := match EditPersonForm.password_one cleaned_data with
               | Some raw => _ | None => _ end).
  assert (Hpw : password inst =
    match EditPersonForm.password_one cleaned_data with
    | Some raw => if negb (String.eqb raw "") then make_password raw
                  else password instance
    | None => password instance
    end).
  { subst inst. destruct (EditPersonForm.password_one cleaned_data) as [raw|];
      [by destruct (negb (String.eqb raw ""))|done]. }
  clearbody inst. by destruct commit.
Qed.

(** X12.  A password that EditPersonForm stores has been typed twice: when
    validation passes and the first password field is non-empty, the second
    field holds the same value, and save sets the password from it. *)
Theorem edit_person_stored_password_was_confirmed
    (make_password : string → string) (instance : User)
    (cleaned_data checked : EditPersonForm.CleanedData) (commit : bool)
    (auth_user : gmap positive User) (p : string) :
  EditPersonForm.clean cleaned_data = Return checked →
  EditPersonForm.password_one cleaned_data = Some p → p ≠ "" →
  checked = cleaned_data
  ∧ EditPersonForm.password_two cleaned_data = Some p
  ∧ password (EditPersonForm.save make_password instance checked commit
                auth_user).1 = make_password p.
Proof.
  intros Hclean Hone Hp. unfold EditPersonForm.clean in Hclean.
  rewrite Hone in Hclean. simpl in Hclean.
  apply String.eqb_neq in Hp. rewrite Hp in Hclean. simpl in Hclean.
  case_bool_decide as Hsame; [done|]. injection Hclean as <-.
  split; [done|]. split.
  - destruct (decide (EditPersonForm.password_two cleaned_data = Some p))
      as [|Hne]; [done|]. destruct Hsame. congruence.
  - by rewrite edit_person_saved_password, Hone, Hp.
Qed.

Lemma edit_person_stored_password_was_confirmed_witness :
  EditPersonForm.password_two (ann_cleaned (Some "new") (Some "new")) = Some "new"
  ∧ password (EditPersonForm.save (String.append "sha1$") ann
                (ann_cleaned (Some "new") (Some "new")) true ∅).1 = "sha1$new".
Proof.
  destruct (edit_person_stored_password_was_confirmed (String.append "sha1$") ann
              (ann_cleaned (Some "new") (Some "new"))
              (ann_cleaned (Some "new") (Some "new")) true ∅ "new"
              eq_refl eq_refl ltac:(done)) as (_ & Htwo & Hpw).
  by split.
Defined.

(** X13.  A password typed into the second field only is dropped without
    an error: when the first password field is empty or missing,
    validation passes whatever the second field holds, and save leaves the
    user's password as it was. *)
Theorem edit_person_second_password_alone_is_ignored
    (make_password : string → string) (instance : User)
    (cleaned_data : EditPersonForm.CleanedData) (commit : bool)
    (auth_user : gmap positive User) :
  EditPersonForm.password_one cleaned_data = None ∨
  EditPersonForm.password_one cleaned_data = Some "" →
  EditPersonForm.clean cleaned_data = Return cleaned_data
  ∧ password (EditPersonForm.save make_password instance cleaned_data commit
                auth_user).1 = password instance.
Proof.
  intros Hone. split.
  - unfold EditPersonForm.clean. by destruct Hone as [-> | ->].
  - rewrite edit_person_saved_password. by destruct Hone as [-> | ->].
Qed.

Lemma edit_person_second_password_alone_is_ignored_witness :
  EditPersonForm.clean (ann_cleaned (Some "") (Some "typed")) =
    Return (ann_cleaned (Some "") (Some "typed"))
  ∧ password (EditPersonForm.save (String.append "sha1$") ann
                (ann_cleaned (Some "") (Some "typed")) true ∅).1 = "sha1$old".
Proof.
  apply (edit_person_second_password_alone_is_ignored (String.append "sha1$") ann
           (ann_cleaned (Some "") (Some "typed")) true ∅).
  by right.
Defined.

(** ** Quick search: the reverse call identifies the item *)

(** X14.  Two items for which QuickSearchForm makes the same reverse call
    are the same item: the view name and the keyword arguments it passes
    determine the item's class and id. *)
Theorem quick_search_address_identifies_item (i1 i2 : item) (address : url) :
  QuickSearchForm.clean_quick_search i1 = Return address →
  QuickSearchForm.clean_quick_search i2 = Return address →
  i1 = i2.
Proof.
  destruct i1 as [c1 id1], i2 as [c2 id2].
  unfold QuickSearchForm.clean_quick_search, QuickSearchForm.isinstance. simpl.
  destruct c1, c2; simpl; intros [= <-] [=]; by subst.
Qed.

Lemma quick_search_address_identifies_item_witness :
  {| item_class := timepiece_Business; item_id := 5 |} =
  {| item_class := timepiece_Business; item_id := 5 |}.
Proof.
  apply (quick_search_address_identifies_item
           {| item_class := timepiece_Business; item_id := 5 |}
           {| item_class := timepiece_Business; item_id := 5 |}
           (reverse "view_business" [("business", 5)])); reflexivity.
Defined.

(** ** Billing periods: validation and saving together *)

(** X15.  For an active period RepeatPeriodForm requires count and
    interval, and takes a count of 0 and an empty interval as missing: the
    field is refused with 'This field is required.' exactly then.  For a
    period that is not active both are returned whatever they are. *)
Theorem repeat_period_count_and_interval_required_when_active
    (f : RepeatPeriodForm.Form) :
  let cd := RepeatPeriodForm.cleaned_data f in
  (RepeatPeriodForm.clean_count f =
     Raise (ValidationError (Msg "This field is required."))
   ↔ RepeatPeriodForm.cleaned_active cd = true ∧
     (RepeatPeriodForm.cleaned_count cd = None ∨
      RepeatPeriodForm.cleaned_count cd = Some 0))
  ∧ (RepeatPeriodForm.clean_interval f =
       Raise (ValidationError (Msg "This field is required."))
     ↔ RepeatPeriodForm.cleaned_active cd = true ∧
       (RepeatPeriodForm.cleaned_interval cd = None ∨
        RepeatPeriodForm.cleaned_interval cd = Some ""))
  ∧ (RepeatPeriodForm.cleaned_active cd = false →
     RepeatPeriodForm.clean_count f = Return (RepeatPeriodForm.cleaned_count cd) ∧
     RepeatPeriodForm.clean_interval f =
       Return (RepeatPeriodForm.cleaned_interval cd)).
Proof.
  cbv zeta. unfold RepeatPeriodForm.clean_count, RepeatPeriodForm.clean_interval,
    RepeatPeriodForm._clean_optional, RepeatPeriodForm.this_field_is_required.
  destruct (RepeatPeriodForm.cleaned_active _); simpl.
  - split; [|split; [|done]].
    + destruct (RepeatPeriodForm.cleaned_count _) as [n|]; simpl.
      * destruct (Z.eqb_spec n 0) as [->|Hn]; simpl.
        -- split; [intros _; split; [done|by right]|done].
        -- split; [done|]. intros [_ [[=]|[= ->]]]. done.
      * split; [intros _; split; [done|by left]|done].
    + destruct (RepeatPeriodForm.cleaned_interval _) as [i|]; simpl.
      * destruct (String.eqb_spec i "") as [->|Hi]; simpl.
        -- split; [intros _; split; [done|by right]|done].
        -- split; [done|]. intros [_ [[=]|[= ->]]]. done.
      * split; [intros _; split; [done|by left]|done].
  - split; [|split; [|done]]; (split; [done|by intros [[=] _]]).
Qed.

Lemma repeat_period_count_and_interval_required_when_active_witness :
  RepeatPeriodForm.clean_count
    {| RepeatPeriodForm.instance := weekly;
       RepeatPeriodForm.cleaned_data :=
         {| RepeatPeriodForm.cleaned_active := false;
            RepeatPeriodForm.cleaned_count := Some 0;
            RepeatPeriodForm.cleaned_interval := None;
            RepeatPeriodForm.cleaned_date := None |} |} = Return (Some 0).
Proof.
  refine (proj1 (proj2 (proj2
            (repeat_period_count_and_interval_required_when_active _)) _)).
  reflexivity.
Defined.

Section repeat_period_composed.
Context `{PeriodModels}.

Lemma save_raise f st x :
  RepeatPeriodForm.save f st = Raise x →
  (x = TypeError ∧
   period_id (RepeatPeriodForm.instance f) = None ∧
   RepeatPeriodForm.cleaned_active (RepeatPeriodForm.cleaned_data f) = true ∧
   RepeatPeriodForm.cleaned_date (RepeatPeriodForm.cleaned_data f) = None)
  ∨ (x = DoesNotExist ∧
     ∃ i d,
       period_id (RepeatPeriodForm.instance f) = Some i ∧
       RepeatPeriodForm.cleaned_active (RepeatPeriodForm.cleaned_data f) = true ∧
       RepeatPeriodForm.cleaned_date (RepeatPeriodForm.cleaned_data f) = Some d ∧
       latest (RepeatPeriodForm.billing_windows i st) = None).
Proof.
  unfold RepeatPeriodForm.save, RepeatPeriodForm.model_save,
    RepeatPeriodForm.latest_or_raise, RepeatPeriodForm.billing_windows,
    RepeatPeriodForm.construct_instance.
  simpl. destruct (period_id (RepeatPeriodForm.instance f)) as [i|] eqn:Hid; simpl.
  - destruct (RepeatPeriodForm.cleaned_date _) as [d|] eqn:Hdate; simpl; [|done].
    destruct (RepeatPeriodForm.cleaned_active _) eqn:Hact; simpl; [|done].
    destruct (latest _) as [l|] eqn:Hl; simpl.
    + by case_bool_decide.
    + intros [= <-]. right. split; [done|]. by exists i, d.
  - destruct (RepeatPeriodForm.cleaned_active _) eqn:Hact; simpl; [|done].
    destruct (RepeatPeriodForm.cleaned_date _) as [d|] eqn:Hdate; simpl; [done|].
    intros [= <-]. by left.
Qed.

Lemma clean_date_raise_iff f x :
  RepeatPeriodForm.clean_date f = Raise x ↔
  x = ValidationError RepeatPeriodForm.start_date_required ∧
  period_id (RepeatPeriodForm.instance f) = None ∧
  RepeatPeriodForm.cleaned_active (RepeatPeriodForm.cleaned_data f) = true ∧
  RepeatPeriodForm.cleaned_date (RepeatPeriodForm.cleaned_data f) = None.
Proof.
  unfold RepeatPeriodForm.clean_date.
  destruct (RepeatPeriodForm.cleaned_active _); simpl.
  - destruct (period_id _) as [i|]; simpl.
    + split; [done|]. by intros (_ & [=] & _).
    + destruct (RepeatPeriodForm.cleaned_date _) as [d|]; simpl.
      * split; [done|]. by intros (_ & _ & _ & [=]).
      * split; [by intros [= <-]|by intros (-> & _)].
  - split; [done|]. by intros (_ & _ & [=] & _).
Qed.

Lemma clean_does_not_exist_iff f st :
  RepeatPeriodForm.clean f st = Raise DoesNotExist ↔
  ∃ i d,
    period_id (RepeatPeriodForm.instance f) = Some i ∧
    RepeatPeriodForm.cleaned_date (RepeatPeriodForm.cleaned_data f) = Some d ∧
    latest (RepeatPeriodForm.billing_windows i st) = None.
Proof.
  unfold RepeatPeriodForm.clean, RepeatPeriodForm.latest_or_raise.
  destruct (period_id _) as [i|]; simpl.
  - destruct (RepeatPeriodForm.cleaned_date _) as [d|]; simpl.
    + destruct (latest _) as [l|] eqn:Hl; simpl.
      * split.
        -- by destruct (_ && _).
        -- intros (i' & d' & [= <-] & _ & Hl'). congruence.
      * split; [intros _; by exists i, d|done].
    + split; [done|]. by intros (i' & d' & _ & [=] & _).
  - split; [done|]. by intros (i' & d' & [=] & _).
Qed.

(** X16.  Validation secures what RepeatPeriodForm.save relies on.  When
    clean_date and clean have passed, a new active period has its start
    date and an existing active period with a start date has a latest
    billing window; so save neither adds the delta to a missing date
    (TypeError) nor fails in latest() (DoesNotExist). *)
Theorem repeat_period_validation_secures_save
    (f : RepeatPeriodForm.Form) (st : Store) (d : option Date)
    (cd : RepeatPeriodForm.CleanedData) :
  RepeatPeriodForm.clean_date f = Return d →
  RepeatPeriodForm.clean f st = Return cd →
  (period_id (RepeatPeriodForm.instance f) = None →
   RepeatPeriodForm.cleaned_active (RepeatPeriodForm.cleaned_data f) = true →
   ∃ start_date,
     RepeatPeriodForm.cleaned_date (RepeatPeriodForm.cleaned_data f) =
       Some start_date)
  ∧ (∀ i start_date,
       period_id (RepeatPeriodForm.instance f) = Some i →
       RepeatPeriodForm.cleaned_date (RepeatPeriodForm.cleaned_data f) =
         Some start_date →
       ∃ l, latest (RepeatPeriodForm.billing_windows i st) = Some l)
  ∧ RepeatPeriodForm.save f st ≠ Raise TypeError
  ∧ RepeatPeriodForm.save f st ≠ Raise DoesNotExist.
Proof.
  intros Hcd Hc.
  assert (Hdate :
    period_id (RepeatPeriodForm.instance f) = None →
    RepeatPeriodForm.cleaned_active (RepeatPeriodForm.cleaned_data f) = true →
    ∃ start_date,
      RepeatPeriodForm.cleaned_date (RepeatPeriodForm.cleaned_data f) =
        Some start_date).
  { intros Hid Hact.
    destruct (RepeatPeriodForm.cleaned_date (RepeatPeriodForm.cleaned_data f))
      as [start_date|] eqn:Hdate; [by exists start_date|].
    assert (Hr : RepeatPeriodForm.clean_date f =
                 Raise (ValidationError RepeatPeriodForm.start_date_required))
      by (by apply clean_date_raise_iff).
    congruence. }
  assert (Hlatest :
    ∀ i start_date,
      period_id (RepeatPeriodForm.instance f) = Some i →
      RepeatPeriodForm.cleaned_date (RepeatPeriodForm.cleaned_data f) =
        Some start_date →
      ∃ l, latest (RepeatPeriodForm.billing_windows i st) = Some l).
  { intros i start_date Hid Hsd.
    destruct (latest (RepeatPeriodForm.billing_windows i st)) as [l|] eqn:Hl;
      [by exists l|].
    assert (Hr : RepeatPeriodForm.clean f st = Raise DoesNotExist)
      by (apply clean_does_not_exist_iff; by exists i, start_date).
    congruence. }
  split; [exact Hdate|]. split; [exact Hlatest|]. split.
  - intros [(_ & Hid & Hact & Hnone)|([=] & _)]%save_raise.
    destruct (Hdate Hid Hact) as [start_date Hsd]. congruence.
  - intros [([=] & _)|(_ & i & start_date & Hid & _ & Hsd & Hl)]%save_raise.
    destruct (Hlatest i start_date Hid Hsd) as [l Hl']. congruence.
Qed.

Lemma save_touches_own_period f st saved st' :
  RepeatPeriodForm.save f st = Return (saved, st') →
  ∃ st1, st' = update_billing_windows saved st1 ∧
    (∀ j, period_id saved ≠ Some j →
          repeat_periods st1 !! j = repeat_periods st !! j ∧
          RepeatPeriodForm.billing_windows j st1 =
            RepeatPeriodForm.billing_windows j st) ∧
    (period_id (RepeatPeriodForm.instance f) = None →
     ∀ j, period_id saved = Some j → repeat_periods st !! j = None).
Proof.
  assert (Hfresh : repeat_periods st !! fresh (dom (repeat_periods st)) = None)
    by (apply not_elem_of_dom, is_fresh).
  assert (Hkeep : ∀ i j p ws,
    Some i ≠ Some j →
    <[i := p]> (repeat_periods st) !! j = repeat_periods st !! j ∧
    filter (λ w, period w = j) (windows st ++ filter (λ w, period w = i) ws) =
    filter (λ w, period w = j) (windows st)).
  { intros i j p ws Hne. split; [rewrite lookup_insert_ne; congruence|].
    rewrite filter_app, list_filter_filter.
    rewrite (proj2 (filter_empty_iff _ ws)); [by rewrite app_nil_r|].
    intros w _ [Hj Hi]. congruence. }
  unfold RepeatPeriodForm.save, RepeatPeriodForm.model_save,
    RepeatPeriodForm.latest_or_raise, RepeatPeriodForm.create,
    RepeatPeriodForm.billing_windows, RepeatPeriodForm.construct_instance.
  simpl. destruct (period_id (RepeatPeriodForm.instance f)) as [i|] eqn:Hid; simpl.
  - assert (Hnone : ∀ j p, Some i ≠ Some j →
      <[i := p]> (repeat_periods st) !! j = repeat_periods st !! j).
    { intros j p Hne. by destruct (Hkeep i j p [] Hne). }
    destruct (RepeatPeriodForm.cleaned_date _) as [d|]; simpl.
    + destruct (RepeatPeriodForm.cleaned_active _); simpl.
      * destruct (latest _) as [l|]; simpl; [|done].
        case_bool_decide; simpl; intros [= <- <-]; eexists;
          (split; [done|]); simpl; (split; [|done]); intros j Hne.
        -- set (w := {| period := i; date := end_date l; end_date := _ |}).
           destruct (Hkeep i j
             {| period_id := Some i; active := true;
                count := RepeatPeriodForm.cleaned_count (RepeatPeriodForm.cleaned_data f);
                interval := RepeatPeriodForm.cleaned_interval (RepeatPeriodForm.cleaned_data f) |}
             [w] Hne) as [Hrow Hwin].
           split; [done|]. rewrite <- Hwin. f_equal. f_equal.
           rewrite filter_cons_True by done. done.
        -- split; [by apply Hnone|done].
      * intros [= <- <-]. eexists. split; [done|]. simpl. split; [|done].
        intros j Hne. split; [by apply Hnone|done].
    + intros [= <- <-]. eexists. split; [done|]. simpl. split; [|done].
      intros j Hne. split; [by apply Hnone|done].
  - destruct (RepeatPeriodForm.cleaned_active _); simpl.
    + destruct (RepeatPeriodForm.cleaned_date _) as [d|]; simpl; [|done].
      intros [= <- <-]. eexists. split; [done|]. simpl. split.
      * intros j Hne.
        set (w := {| period := fresh (dom (repeat_periods st)); date := d;
                     end_date := _ |}).
        destruct (Hkeep (fresh (dom (repeat_periods st))) j
          {| period_id := Some (fresh (dom (repeat_periods st))); active := true;
             count := RepeatPeriodForm.cleaned_count (RepeatPeriodForm.cleaned_data f);
             interval := RepeatPeriodForm.cleaned_interval (RepeatPeriodForm.cleaned_data f) |}
          [w] Hne) as [Hrow Hwin].
        split; [done|]. rewrite <- Hwin. f_equal. f_equal.
        rewrite filter_cons_True by done. done.
      * intros _ j [= <-]. exact Hfresh.
    + intros [= <- <-]. eexists. split; [done|]. simpl. split; [done|].
      intros _ j Hj. unfold RepeatPeriodForm.construct_instance in Hj.
      simpl in Hj. congruence.
Qed.

(** X17.  A period that is not active gets no billing window from the
    form.  A new one is not even stored: save hands the store on as it is
    and returns the period without an id.  An existing one has its row
    written and its windows left alone, whatever start date was supplied,
    and latest() is not consulted. *)
Theorem repeat_period_inactive_gets_no_window
    (f : RepeatPeriodForm.Form) (st : Store) :
  RepeatPeriodForm.cleaned_active (RepeatPeriodForm.cleaned_data f) = false →
  (period_id (RepeatPeriodForm.instance f) = None →
   period_id (RepeatPeriodForm.construct_instance f) = None ∧
   RepeatPeriodForm.save f st =
     Return (RepeatPeriodForm.construct_instance f,
             update_billing_windows (RepeatPeriodForm.construct_instance f) st))
  ∧ (∀ i, period_id (RepeatPeriodForm.instance f) = Some i →
          RepeatPeriodForm.save f st =
            Return (saved_period i f,
                    update_billing_windows (saved_period i f)
                      (stored i (saved_period i f) (windows st) st))).
Proof.
  intros Hact. split.
  - intros Hid. split; [done|].
    unfold RepeatPeriodForm.save, RepeatPeriodForm.construct_instance.
    simpl. by rewrite Hid, Hact.
  - intros i Hid.
    unfold RepeatPeriodForm.save, RepeatPeriodForm.construct_instance,
      RepeatPeriodForm.model_save, saved_period, stored.
    simpl. rewrite Hid, Hact. simpl.
    by destruct (RepeatPeriodForm.cleaned_date _).
Qed.

(** X18.  RepeatPeriodForm.clean looks up the latest window of an existing
    period whenever a start date is supplied, active or not: it raises
    DoesNotExist, not a validation error, exactly when the period is
    stored, a date is supplied and latest() finds no window.  When the
    period is not active a date before the latest window's end is let
    through, and without a stored period or without a date nothing is
    checked. *)
Theorem repeat_period_clean_consults_latest
    (f : RepeatPeriodForm.Form) (st : Store) :
  (RepeatPeriodForm.clean f st = Raise DoesNotExist
   ↔ ∃ i d,
       period_id (RepeatPeriodForm.instance f) = Some i ∧
       RepeatPeriodForm.cleaned_date (RepeatPeriodForm.cleaned_data f) = Some d ∧
       latest (RepeatPeriodForm.billing_windows i st) = None)
  ∧ (∀ i d l,
       period_id (RepeatPeriodForm.instance f) = Some i →
       RepeatPeriodForm.cleaned_date (RepeatPeriodForm.cleaned_data f) = Some d →
       latest (RepeatPeriodForm.billing_windows i st) = Some l →
       RepeatPeriodForm.cleaned_active (RepeatPeriodForm.cleaned_data f) = false →
       RepeatPeriodForm.clean f st = Return (RepeatPeriodForm.cleaned_data f))
  ∧ (period_id (RepeatPeriodForm.instance f) = None ∨
     RepeatPeriodForm.cleaned_date (RepeatPeriodForm.cleaned_data f) = None →
     RepeatPeriodForm.clean f st = Return (RepeatPeriodForm.cleaned_data f)).
Proof.
  split; [apply clean_does_not_exist_iff|]. split.
  - intros i d l Hid Hdate Hl Hact.
    rewrite (clean_existing f st i d l Hid Hdate Hl). by rewrite Hact.
  - unfold RepeatPeriodForm.clean. intros [-> | ->]; [done|].
    by destruct (period_id _).
Qed.

(** X19.  RepeatPeriodForm.save touches its own period only.  When the
    model's update_billing_windows leaves the rows and the windows of other
    periods alone, every other period has the same row and the same billing
    windows after save as before; and a new period is stored under a key
    that held no row, so no period is overwritten. *)
Theorem repeat_period_save_touches_own_period_only
    (f : RepeatPeriodForm.Form) (st st' : Store) (saved : RepeatPeriod) :
  (∀ p s j, period_id p ≠ Some j →
     repeat_periods (update_billing_windows p s) !! j = repeat_periods s !! j ∧
     RepeatPeriodForm.billing_windows j (update_billing_windows p s) =
       RepeatPeriodForm.billing_windows j s) →
  RepeatPeriodForm.save f st = Return (saved, st') →
  (∀ j, period_id saved ≠ Some j →
        repeat_periods st' !! j = repeat_periods st !! j ∧
        RepeatPeriodForm.billing_windows j st' =
          RepeatPeriodForm.billing_windows j st)
  ∧ (period_id (RepeatPeriodForm.instance f) = None →
     ∀ j, period_id saved = Some j → repeat_periods st !! j = None).
Proof.
  intros Hupd Hsave.
  apply save_touches_own_period in Hsave as (st1 & -> & Hother & Hnew).
  split; [|done]. intros j Hj.
  destruct (Hupd saved st1 j Hj) as [-> ->]. by apply Hother.
Qed.

(** X20.  A window appended on rollover is never empty or inverted.  When
    adding the period's delta does not move a date back, the window that
    save appends to an existing active period starts where the latest
    window ends and ends strictly later. *)
Theorem repeat_period_appended_window_is_proper
    (f : RepeatPeriodForm.Form) (st : Store) (i : positive) (d : Date)
    (l : BillingWindow) :
  (∀ day, day ≤ date_add day (delta (saved_period i f))) →
  period_id (RepeatPeriodForm.instance f) = Some i →
  RepeatPeriodForm.cleaned_active (RepeatPeriodForm.cleaned_data f) = true →
  RepeatPeriodForm.cleaned_date (RepeatPeriodForm.cleaned_data f) = Some d →
  latest (RepeatPeriodForm.billing_windows i st) = Some l →
  end_date l < d →
  ∃ w, RepeatPeriodForm.save f st =
         Return (saved_period i f,
                 update_billing_windows (saved_period i f)
                   (stored i (saved_period i f) (windows st ++ [w]) st))
       ∧ period w = i ∧ date w = end_date l ∧ date w < end_date w.
Proof.
  intros Hmono Hid Hact Hdate Hl Hlt.
  pose proof (save_existing_active f st i d l Hid Hact Hdate Hl) as Hs.
  cbv zeta in Hs. rewrite bool_decide_eq_true_2 in Hs by done.
  eexists. split; [exact Hs|]. simpl. split; [done|]. split; [done|].
  specialize (Hmono d). lia.
Qed.

End repeat_period_composed.

Lemma repeat_period_validation_secures_save_witness :
  RepeatPeriodForm.save (H := day_models) (edit_form (Some 10)) one_window_store ≠
    Raise DoesNotExist.
Proof.
  exact (proj2 (proj2 (proj2
           (repeat_period_validation_secures_save (H := day_models)
              (edit_form (Some 10)) one_window_store (Some 10)
              (weekly_cleaned (Some 10)) eq_refl eq_refl)))).
Defined.

Lemma repeat_period_inactive_gets_no_window_witness :
  RepeatPeriodForm.save (H := day_models)
    {| RepeatPeriodForm.instance := weekly;
       RepeatPeriodForm.cleaned_data :=
         {| RepeatPeriodForm.cleaned_active := false;
            RepeatPeriodForm.cleaned_count := Some 7;
            RepeatPeriodForm.cleaned_interval := Some "day";
            RepeatPeriodForm.cleaned_date := Some 30 |} |} one_window_store =
  Return ({| period_id := Some 1%positive; active := false; count := Some 7;
             interval := Some "day" |},
          {| repeat_periods :=
               {[1%positive := {| period_id := Some 1%positive; active := false;
                                  count := Some 7; interval := Some "day" |}]};
             windows := [first_window] |}).
Proof.
  exact (proj2 (repeat_period_inactive_gets_no_window (H := day_models)
                  {| RepeatPeriodForm.instance := weekly;
                     RepeatPeriodForm.cleaned_data :=
                       {| RepeatPeriodForm.cleaned_active := false;
                          RepeatPeriodForm.cleaned_count := Some 7;
                          RepeatPeriodForm.cleaned_interval := Some "day";
                          RepeatPeriodForm.cleaned_date := Some 30 |} |}
                  one_window_store eq_refl) 1%positive eq_refl).
Defined.

Lemma repeat_period_clean_consults_latest_witness :
  RepeatPeriodForm.clean (H := day_models) (edit_form (Some 10))
    {| repeat_periods := {[1%positive := weekly]}; windows := [] |} =
  Raise DoesNotExist.
Proof.
  apply (proj1 (repeat_period_clean_consults_latest (H := day_models)
                  (edit_form (Some 10))
                  {| repeat_periods := {[1%positive := weekly]}; windows := [] |})).
  by exists 1%positive, 10.
Defined.

Lemma repeat_period_save_touches_own_period_only_witness :
  repeat_periods
    (stored 1 (saved_period 1 (edit_form (Some 10)))
       [first_window; {| period := 1; date := 7; end_date := 17 |}]
       one_window_store) !! 2%positive =
  repeat_periods one_window_store !! 2%positive.
Proof.
  refine (proj1 (proj1 (repeat_period_save_touches_own_period_only
                          (H := day_models) (edit_form (Some 10))
                          one_window_store _ _ _ _) 2%positive _)).
  - intros p s j _. by split.
  - reflexivity.
  - done.
Defined.

Lemma repeat_period_appended_window_is_proper_witness :
  ∃ w, RepeatPeriodForm.save (H := day_models) (edit_form (Some 10))
         one_window_store =
         Return (saved_period 1 (edit_form (Some 10)),
                 stored 1 (saved_period 1 (edit_form (Some 10)))
                   (windows one_window_store ++ [w]) one_window_store)
       ∧ period w = 1%positive ∧ date w = end_date first_window
       ∧ date w < end_date w.
Proof.
  refine (repeat_period_appended_window_is_proper (H := day_models)
            (edit_form (Some 10)) one_window_store 1%positive 10 first_window
            _ eq_refl eq_refl eq_refl eq_refl _).
  - intros day. simpl. lia.
  - simpl. lia.
Defined.
